(** * binance_mcp: request signing and pre-trade guardrails

    A shallow embedding of [binance_mcp.py]: the clock synchroniser, the
    request signer, the guardrail checks and the order routes, followed by
    the properties the specification states about them.

    Conventions of the embedding.
    - A Python [str] is a Rocq [string] read as its UTF-8 bytes, so that
      [s.encode("utf-8")] is the identity.
    - A Python [float] is a primitive binary64 [float]; comparisons and
      arithmetic are the IEEE ones Python uses, and [/] raises
      [ZeroDivisionError] on a zero divisor.
    - A Python [int] is a [Z].
    - A [dict] is an association list in insertion order with unique keys;
      assignment to a present key keeps its position.
    - Module globals read from the environment form the record [Config];
      the one mutable global, [time_offset_ms], lives in [State].
    - [async] functions run to completion on one task, so they are state
      passing functions; the network and the wall clock are oracles. *)

From Stdlib Require Import ZArith List String Ascii Bool Lia Floats.
Import ListNotations.
Local Open Scope string_scope.
Local Open Scope list_scope.
Local Open Scope Z_scope.

(* ------------------------------------------------------------------ *)
(** ** Bytes and hexadecimal text *)

Definition bytes := list Z.

Definition byte_of_ascii (c : ascii) : Z := Z.of_N (N_of_ascii c).

Definition encode_utf8 (s : string) : bytes :=
  map byte_of_ascii (list_ascii_of_string s).

Definition hex_digit (upper : bool) (d : Z) : ascii :=
  if d <? 10 then ascii_of_N (Z.to_N (48 + d))
  else ascii_of_N (Z.to_N ((if upper then 55 else 87) + d)).

Definition hex_byte (upper : bool) (b : Z) : string :=
  String (hex_digit upper (Z.shiftr b 4))
    (String (hex_digit upper (Z.land b 15)) EmptyString).

Fixpoint hex_of_bytes (bs : bytes) : string :=
  match bs with
  | [] => EmptyString
  | b :: bs' => String.append (hex_byte false b) (hex_of_bytes bs')
  end.

(* ------------------------------------------------------------------ *)
(** ** SHA-256 (hashlib.sha256) on 32-bit words held in [Z] *)

Module SHA256.

Definition mask32 : Z := 4294967295.
Definition w32 (x : Z) : Z := Z.land x mask32.
Definition add32 (x y : Z) : Z := w32 (x + y).
Definition rotr (n x : Z) : Z :=
  Z.lor (Z.shiftr x n) (w32 (Z.shiftl x (32 - n))).
Definition not32 (x : Z) : Z := Z.lxor x mask32.

Definition Ch (x y z : Z) : Z := Z.lxor (Z.land x y) (Z.land (not32 x) z).
Definition Maj (x y z : Z) : Z :=
  Z.lxor (Z.lxor (Z.land x y) (Z.land x z)) (Z.land y z).
Definition Sum0 (x : Z) : Z := Z.lxor (Z.lxor (rotr 2 x) (rotr 13 x)) (rotr 22 x).
Definition Sum1 (x : Z) : Z := Z.lxor (Z.lxor (rotr 6 x) (rotr 11 x)) (rotr 25 x).
Definition sig0 (x : Z) : Z := Z.lxor (Z.lxor (rotr 7 x) (rotr 18 x)) (Z.shiftr x 3).
Definition sig1 (x : Z) : Z := Z.lxor (Z.lxor (rotr 17 x) (rotr 19 x)) (Z.shiftr x 10).

(** The round constants are the leading 32 fractional bits of the cube
    roots of the first 64 primes, the initial state those of the square
    roots of the first 8; both tables are computed rather than typed in. *)

Definition has_divisor (n : Z) (ps : list Z) : bool :=
  existsb (fun p => n mod p =? 0) ps.

Fixpoint primes_from (fuel : nat) (n : Z) (count : nat) (found : list Z) : list Z :=
  match fuel, count with
  | O, _ | _, O => rev found
  | S fuel', S count' =>
      if has_divisor n found then primes_from fuel' (n + 1) count found
      else primes_from fuel' (n + 1) count' (n :: found)
  end.

Definition first_primes (count : nat) : list Z := primes_from 400 2 count [].

Fixpoint icbrt_bits (bit : nat) (n r : Z) : Z :=
  let try_bit b :=
    let r' := r + Z.shiftl 1 (Z.of_nat b) in
    if r' * r' * r' <=? n then r' else r in
  match bit with
  | O => try_bit O
  | S b => icbrt_bits b n (try_bit bit)
  end.

Definition icbrt (n : Z) : Z := icbrt_bits 40 n 0.

Definition K : list Z :=
  Eval vm_compute in
    map (fun p => w32 (icbrt (p * 2 ^ 96))) (first_primes 64).

Definition H0 : list Z :=
  Eval vm_compute in
    map (fun p => w32 (Z.sqrt (p * 2 ^ 64))) (first_primes 8).

(** Big-endian packing. *)

Fixpoint be_bytes (n : nat) (x : Z) : bytes :=
  match n with
  | O => []
  | S n' => Z.land (Z.shiftr x (8 * Z.of_nat n')) 255 :: be_bytes n' x
  end.

Fixpoint be_words (bs : bytes) : list Z :=
  match bs with
  | a :: b :: c :: d :: rest =>
      (Z.lor (Z.shiftl a 24) (Z.lor (Z.shiftl b 16) (Z.lor (Z.shiftl c 8) d)))
        :: be_words rest
  | _ => []
  end.

Definition pad (msg : bytes) : bytes :=
  let len := Z.of_nat (List.length msg) in
  let zeros := Z.to_nat ((55 - len) mod 64) in
  msg ++ 128 :: repeat 0 zeros ++ be_bytes 8 (8 * len).

(** Message schedule: [extend n w] appends [n] words to the 16 words [w],
    each from the four words the standard names. *)

Fixpoint extend (n : nat) (w : list Z) : list Z :=
  match n with
  | O => w
  | S n' =>
      let t := List.length w in
      let at_ k := nth (t - k) w 0 in
      extend n' (w ++ [add32 (add32 (sig1 (at_ 2%nat)) (at_ 7%nat))
                             (add32 (sig0 (at_ 15%nat)) (at_ 16%nat))])
  end.

Record regs := Regs { ra : Z; rb : Z; rc : Z; rd : Z; re : Z; rf : Z; rg : Z; rh : Z }.

Definition round (s : regs) (kw : Z * Z) : regs :=
  let t1 := add32 (add32 (add32 (rh s) (Sum1 (re s))) (Ch (re s) (rf s) (rg s)))
                  (add32 (fst kw) (snd kw)) in
  let t2 := add32 (Sum0 (ra s)) (Maj (ra s) (rb s) (rc s)) in
  Regs (add32 t1 t2) (ra s) (rb s) (rc s) (add32 (rd s) t1) (re s) (rf s) (rg s).

Definition regs_of (h : list Z) : regs :=
  Regs (nth 0 h 0) (nth 1 h 0) (nth 2 h 0) (nth 3 h 0)
       (nth 4 h 0) (nth 5 h 0) (nth 6 h 0) (nth 7 h 0).

Definition list_of (s : regs) : list Z :=
  [ra s; rb s; rc s; rd s; re s; rf s; rg s; rh s].

Definition compress (h : list Z) (block : bytes) : list Z :=
  let w := extend 48 (be_words block) in
  let s := fold_left round (combine K w) (regs_of h) in
  map (fun p => add32 (fst p) (snd p)) (combine h (list_of s)).

Fixpoint blocks (n : nat) (h : list Z) (bs : bytes) : list Z :=
  match n with
  | O => h
  | S n' => blocks n' (compress h (firstn 64 bs)) (skipn 64 bs)
  end.

Definition digest (msg : bytes) : bytes :=
  let p := pad msg in
  flat_map (be_bytes 4) (blocks (List.length p / 64) H0 p).

End SHA256.

(** ** HMAC (hmac.new(key, msg, hashlib.sha256)) *)

Module HMAC.

Definition block_size : nat := 64.

Definition key_block (key : bytes) : bytes :=
  let k := if (block_size <? List.length key)%nat then SHA256.digest key else key in
  k ++ repeat 0 (block_size - List.length k).

Definition digest (key msg : bytes) : bytes :=
  let k := key_block key in
  let inner := SHA256.digest (map (Z.lxor 54) k ++ msg) in
  SHA256.digest (map (Z.lxor 92) k ++ inner).

Definition hexdigest (key msg : bytes) : string := hex_of_bytes (digest key msg).

End HMAC.

(* ------------------------------------------------------------------ *)
(** ** Parameter dictionaries and urllib.parse.urlencode *)

(** The values the routes store in a parameter dictionary: text and
    integers ([Dict[str, Any]] in the source). *)
Inductive pyval :=
| PStr (s : string)
| PInt (n : Z).

Definition dict := list (string * pyval).

Fixpoint dict_get (d : dict) (k : string) : option pyval :=
  match d with
  | [] => None
  | (k', v) :: d' => if String.eqb k' k then Some v else dict_get d' k
  end.

(** [d[k] = v]: a present key keeps its place, a new one goes last. *)
Fixpoint dict_set (d : dict) (k : string) (v : pyval) : dict :=
  match d with
  | [] => [(k, v)]
  | (k', v') :: d' =>
      if String.eqb k' k then (k', v) :: d' else (k', v') :: dict_set d' k v
  end.

Definition dict_keys (d : dict) : list string := map fst d.

(** [str(n)] for an [int]. *)
Definition digit_char (d : Z) : ascii := ascii_of_N (Z.to_N (48 + d)).

Fixpoint digits_acc (fuel : nat) (n : Z) (acc : string) : string :=
  match fuel with
  | O => acc
  | S fuel' =>
      let acc' := String (digit_char (n mod 10)) acc in
      if n <? 10 then acc' else digits_acc fuel' (n / 10) acc'
  end.

Definition str_of_nonneg (n : Z) : string :=
  digits_acc (S (Z.to_nat (Z.log2 n))) n EmptyString.

Definition str_of_int (n : Z) : string :=
  if n <? 0 then String "-"%char (str_of_nonneg (- n)) else str_of_nonneg n.

Definition str_of_pyval (v : pyval) : string :=
  match v with
  | PStr s => s
  | PInt n => str_of_int n
  end.

(** [quote_plus(s)] with the default [safe=""]: letters, digits and
    [_.-~] stay, a space becomes [+], any other byte becomes [%XX]. *)
Definition always_safe (b : Z) : bool :=
  ((65 <=? b) && (b <=? 90)) || ((97 <=? b) && (b <=? 122))
  || ((48 <=? b) && (b <=? 57))
  || (b =? 95) || (b =? 46) || (b =? 45) || (b =? 126).

Definition quote_byte (c : ascii) : string :=
  let b := byte_of_ascii c in
  if always_safe b then String c EmptyString
  else if b =? 32 then String "+"%char EmptyString
  else String "%"%char (hex_byte true b).

Fixpoint quote_plus (s : string) : string :=
  match s with
  | EmptyString => EmptyString
  | String c s' => String.append (quote_byte c) (quote_plus s')
  end.

Definition encode_pair (kv : string * pyval) : string :=
  String.append (quote_plus (fst kv))
    (String "="%char (quote_plus (str_of_pyval (snd kv)))).

(** [urlencode(params, doseq=True)]: the pairs in dictionary order,
    joined by [&]. *)
Definition urlencode (d : dict) : string :=
  String.concat "&" (map encode_pair d).

(* ------------------------------------------------------------------ *)
(** ** Configuration (the module globals read from the environment) *)

Record Config := {
  BINANCE_ENV : string;
  BINANCE_HTTP_BASE : string;
  BINANCE_API_KEY : string;
  BINANCE_API_SECRET : string;
  AGENT_KEY : string;
  RECV_WINDOW_MS : Z;
  MAX_NOTIONAL_PER_ORDER : float;
  MAX_QTY_PER_ORDER : float;
  MAX_PRICE_DEVIATION_PCT : float
}.

(* ------------------------------------------------------------------ *)
(** ** Values decoded from JSON, and exceptions *)

Local Unset Elimination Schemes.
Inductive json :=
| JNull
| JBool (b : bool)
| JInt (n : Z)
| JFloat (x : float)
| JStr (s : string)
| JArr (items : list json)
| JObj (fields : list (string * json)).
Local Set Elimination Schemes.

Record Response := {
  status_code : Z;
  content : string
}.

(** The exception classes the module can meet.  [HTTPException] is
    FastAPI's (status code, detail); [HTTPStatusError] and [RequestError]
    are httpx's; the rest are Python's own. *)
Inductive exn :=
| HTTPException (status : Z) (detail : json)
| HTTPStatusError (response : Response)
| RequestError
| JSONDecodeError
| KeyError (key : string)
| TypeError
| ValueError
| OverflowError
| ZeroDivisionError.

Inductive outcome (A : Type) :=
| Ok (a : A)
| Raise (e : exn).
Arguments Ok {A} a.
Arguments Raise {A} e.

(** ** The Python runtime

    What the module takes from the interpreter and its libraries and
    this development does not model: decoding a body as JSON, reading a
    number from text, printing a float, and upper-casing text. *)
Record Python := {
  json_loads : string -> option json;
  float_of_text : string -> option float;
  int_of_text : string -> option Z;
  format_float : string -> float -> string;
  str_upper : string -> string
}.

(** [float(v)] and [int(v)] on a decoded value. *)
Definition float_of_int (n : Z) : outcome float :=
  let x := SF2Prim (binary_normalize prec emax n 0 false) in
  if PrimFloat.is_infinity x then Raise OverflowError else Ok x.

Definition int_of_float (x : float) : outcome Z :=
  match Prim2SF x with
  | S754_zero _ => Ok 0
  | S754_infinity _ => Raise OverflowError
  | S754_nan => Raise ValueError
  | S754_finite s m e =>
      let v := if 0 <=? e then Z.pos m * 2 ^ e else Z.pos m / 2 ^ (- e) in
      Ok (if s then - v else v)
  end.

Definition py_float (py : Python) (v : json) : outcome float :=
  match v with
  | JFloat x => Ok x
  | JInt n => float_of_int n
  | JBool b => Ok (if b then 1%float else 0%float)
  | JStr s => match float_of_text py s with Some x => Ok x | None => Raise ValueError end
  | JNull | JArr _ | JObj _ => Raise TypeError
  end.

Definition py_int (py : Python) (v : json) : outcome Z :=
  match v with
  | JInt n => Ok n
  | JFloat x => int_of_float x
  | JBool b => Ok (if b then 1 else 0)
  | JStr s => match int_of_text py s with Some n => Ok n | None => Raise ValueError end
  | JNull | JArr _ | JObj _ => Raise TypeError
  end.

Fixpoint assoc {A : Type} (k : string) (l : list (string * A)) : option A :=
  match l with
  | [] => None
  | (k', v) :: l' => if String.eqb k' k then Some v else assoc k l'
  end.

(** [v[key]] with a text key. *)
Definition subscript (v : json) (key : string) : outcome json :=
  match v with
  | JObj fields =>
      match assoc key fields with
      | Some x => Ok x
      | None => Raise (KeyError key)
      end
  | _ => Raise TypeError
  end.

(** Python's [/] on floats. *)
Definition float_div (a b : float) : outcome float :=
  if PrimFloat.eqb b 0 then Raise ZeroDivisionError else Ok (PrimFloat.div a b).

(** Truth value of an optional text or integer. *)
Definition truthy_text (s : option string) : bool :=
  match s with
  | Some s => negb (String.eqb s "")
  | None => false
  end.

Definition truthy_int (n : option Z) : bool :=
  match n with
  | Some n => negb (n =? 0)
  | None => false
  end.

(* ------------------------------------------------------------------ *)
(** ** The outside world: requests, the trace, the state *)

Record Request := {
  method : string;
  url : string;
  query : dict;
  headers : list (string * string)
}.

Inductive NetResult :=
| Reply (r : Response)
| Unreachable.

(** What a run leaves behind, oldest first.  [Tick] is a reading of
    [time.time()], [Exchange] a request sent through the httpx client
    with what came back.  [Signed] marks a call of [_sign] with the
    query text it hashed: the call has no effect in the source and is
    recorded so that orderings involving it can be stated. *)
Inductive event :=
| Tick (ms : Z)
| Signed (text : string)
| Exchange (req : Request) (res : NetResult).

Record World := {
  python : Python;
  wall_clock : list event -> Z;
  venue : list event -> Request -> NetResult
}.

Record State := {
  time_offset_ms : Z;
  trace : list event
}.

(** Line 42: the offset starts at 0. *)
Definition initial_state : State := {| time_offset_ms := 0; trace := [] |}.

Definition M (A : Type) : Type := State -> outcome A * State.

Definition ret {A} (a : A) : M A := fun st => (Ok a, st).
Definition raise {A} (e : exn) : M A := fun st => (Raise e, st).
Definition bind {A B} (m : M A) (k : A -> M B) : M B :=
  fun st =>
    match m st with
    | (Ok a, st') => k a st'
    | (Raise e, st') => (Raise e, st')
    end.
Definition lift {A} (o : outcome A) : M A := fun st => (o, st).

(** [try: m  except <class>: h], the class given by [catches]. *)
Definition try_except {A} (m : M A) (catches : exn -> bool) (h : exn -> M A) : M A :=
  fun st =>
    match m st with
    | (Raise e, st') => if catches e then h e st' else (Raise e, st')
    | r => r
    end.

(** Every class above derives from [Exception]. *)
Definition is_Exception (e : exn) : bool := true.

Definition is_HTTPStatusError (e : exn) : bool :=
  match e with
  | HTTPStatusError _ => true
  | _ => false
  end.

Notation "x <- m ;; k" := (bind m (fun x => k))
  (at level 61, m at next level, right associativity).
Notation "m ;;; k" := (bind m (fun _ => k))
  (at level 61, right associativity).

Definition log (ev : event) : M unit :=
  fun st => (Ok tt, {| time_offset_ms := time_offset_ms st; trace := trace st ++ [ev] |}).

Definition set_offset (z : Z) : M unit :=
  fun st => (Ok tt, {| time_offset_ms := z; trace := trace st |}).

Definition get_offset : M Z := fun st => (Ok (time_offset_ms st), st).

(* ------------------------------------------------------------------ *)
(** ** Request models (pydantic bodies, already validated) *)

Record LimitOrderIn := {
  lo_symbol : string;
  lo_side : string;
  lo_price : float;
  lo_qty : float;
  lo_tif : string;
  lo_client_id : option string
}.

Record OCOOrderIn := {
  oco_symbol : string;
  oco_side : string;
  oco_quantity : float;
  oco_price : float;
  oco_stop : float;
  oco_stop_limit : float;
  oco_tif : string;
  oco_client_id : option string
}.

Record CancelOrderIn := {
  co_symbol : string;
  orderId : option Z;
  clientOrderId : option string
}.

(** The [stop_limit] validator of [OCOOrderIn] (lines 83-96).  [values]
    holds the fields validated so far; one that failed its own validation
    is missing from it, and a missing or falsy [stop], [price] or [side]
    lets the value through. *)
Definition truthy_float (x : option float) : bool :=
  match x with
  | Some x => negb (PrimFloat.eqb x 0)
  | None => false
  end.

Definition oco_relation (side : option string) (price stop : option float)
    (v : float) : outcome float :=
  match stop, price, side with
  | Some stop', Some price', Some side' =>
      if negb (truthy_float stop && truthy_float price && truthy_text side)
      then Ok v
      else if String.eqb side' "SELL"
      then if negb (PrimFloat.ltb stop' price' && PrimFloat.leb v stop')
           then Raise ValueError else Ok v
      else if negb (PrimFloat.ltb price' stop' && PrimFloat.leb stop' v)
           then Raise ValueError else Ok v
  | _, _, _ => Ok v
  end.

(** The routes of the application with the dependencies their
    decorators declare. *)
Inductive Endpoint :=
| Health
| ExchangeInfo
| Balances
| OpenOrders
| OrderLimit
| OrderOco
| OrderCancel.

Definition auth_required (e : Endpoint) : bool :=
  match e with
  | Health | ExchangeInfo => false
  | Balances | OpenOrders | OrderLimit | OrderOco | OrderCancel => true
  end.

(** How FastAPI binds a parameter declared
    [name: str = Header(None, convert_underscores=False)]: to the first
    request header whose name, letter case apart, is the parameter's own
    name with its underscores kept; [None] when there is none. *)
Definition ascii_lower (c : ascii) : ascii :=
  let b := byte_of_ascii c in
  if (65 <=? b) && (b <=? 90) then ascii_of_N (Z.to_N (b + 32)) else c.

Fixpoint lower_ascii_text (s : string) : string :=
  match s with
  | EmptyString => EmptyString
  | String c s' => String (ascii_lower c) (lower_ascii_text s')
  end.

Definition header_param (name : string) (request_headers : list (string * string))
  : option string :=
  option_map snd
    (find (fun h => String.eqb (lower_ascii_text (fst h)) name) request_headers).

(* ------------------------------------------------------------------ *)
(** ** The service *)

Section Service.

Variable w : World.
Variable cfg : Config.

Let py := python w.

(** *** Auth dependency (lines 47-50) *)

Definition require_agent_key (x_agent_key : option string) : outcome bool :=
  if String.eqb (AGENT_KEY cfg) ""
     || negb (match x_agent_key with
              | Some k => String.eqb k (AGENT_KEY cfg)
              | None => false
              end)
  then Raise (HTTPException 401 (JStr "Unauthorized"))
  else Ok true.

(** A route runs its dependencies, then its body. *)
Definition serve {A} (e : Endpoint) (request_headers : list (string * string))
    (body : M A) : M A :=
  if auth_required e
  then lift (require_agent_key (header_param "x_agent_key" request_headers)) ;;; body
  else body.

(** *** Binance helpers (lines 111-173) *)

Definition _sign (params : dict) : string :=
  let query := urlencode params in
  HMAC.hexdigest (encode_utf8 (BINANCE_API_SECRET cfg)) (encode_utf8 query).

Definition now_ms : M Z :=
  fun st =>
    let t := wall_clock w (trace st) in
    (Ok t, {| time_offset_ms := time_offset_ms st; trace := trace st ++ [Tick t] |}).

Definition _timestamp_ms : M Z :=
  t <- now_ms ;;
  off <- get_offset ;;
  ret (t + off).

(** One request through the shared httpx client. *)
Definition send (req : Request) : M Response :=
  fun st =>
    let res := venue w (trace st) req in
    let st' := {| time_offset_ms := time_offset_ms st;
                  trace := trace st ++ [Exchange req res] |} in
    match res with
    | Reply r => (Ok r, st')
    | Unreachable => (Raise RequestError, st')
    end.

Definition is_success (r : Response) : bool :=
  (200 <=? status_code r) && (status_code r <=? 299).

Definition raise_for_status (r : Response) : M unit :=
  if is_success r then ret tt else raise (HTTPStatusError r).

Definition response_json (r : Response) : M json :=
  match json_loads py (content r) with
  | Some j => ret j
  | None => raise JSONDecodeError
  end.

Definition _sync_time : M unit :=
  try_except
    (r <- send {| method := "GET";
                  url := BINANCE_HTTP_BASE cfg ++ "/api/v3/time";
                  query := [];
                  headers := [] |} ;;
     raise_for_status r ;;;
     body <- response_json r ;;
     server_time <- lift (subscript body "serverTime") ;;
     local <- now_ms ;;
     remote <- lift (py_int py server_time) ;;
     set_offset (remote - local))
    is_Exception
    (fun _ => ret tt).

(** [on_start] awaits one [_sync_time]; the refresher then repeats it
    every 600 seconds for ever.  [sync_rounds n] is the first [n] of
    these calls, the sleeps left out. *)
Fixpoint sync_rounds (n : nat) : M unit :=
  match n with
  | O => ret tt
  | S n' => _sync_time ;;; sync_rounds n'
  end.

Definition _public_get (path : string) (params : option dict) : M json :=
  let url := (BINANCE_HTTP_BASE cfg ++ path)%string in
  r <- send {| method := "GET";
               url := url;
               query := match params with Some d => d | None => [] end;
               headers := [] |} ;;
  raise_for_status r ;;;
  response_json r.

(** Lines 150-153, given the timestamp: the dictionary that goes on
    the wire. *)
Definition signed_params (timestamp : Z) (params : dict) : dict :=
  let params := dict_set params "timestamp" (PInt timestamp) in
  let params := dict_set params "recvWindow" (PInt (RECV_WINDOW_MS cfg)) in
  dict_set params "signature" (PStr (_sign params)).

(** The text [_sign] hashes for these parameters. *)
Definition signed_text (timestamp : Z) (params : dict) : string :=
  urlencode (dict_set (dict_set params "timestamp" (PInt timestamp))
                      "recvWindow" (PInt (RECV_WINDOW_MS cfg))).

(** Lines 150-153 as they run: read the timestamp, then sign. *)
Definition sign_request (params : dict) : M dict :=
  timestamp <- _timestamp_ms ;;
  log (Signed (signed_text timestamp params)) ;;;
  ret (signed_params timestamp params).

Definition error_detail (r : Response) : json :=
  match json_loads py (content r) with
  | Some j => j
  | None => JObj [("status_code", JInt (status_code r)); ("text", JStr (content r))]
  end.

Definition _signed_request (method path : string) (params : dict) : M json :=
  if String.eqb (BINANCE_API_KEY cfg) "" || String.eqb (BINANCE_API_SECRET cfg) ""
  then raise (HTTPException 500 (JStr "BINANCE_API_KEY/BINANCE_API_SECRET not set"))
  else
    params <- sign_request params ;;
    let headers := [("X-MBX-APIKEY", BINANCE_API_KEY cfg)] in
    let url := (BINANCE_HTTP_BASE cfg ++ path)%string in
    try_except
      (r <- (if String.eqb method "GET" || String.eqb method "POST"
                || String.eqb method "DELETE"
             then send {| method := method; url := url;
                          query := params; headers := headers |}
             else raise (HTTPException 500 (JStr ("Unsupported method " ++ method)))) ;;
       raise_for_status r ;;;
       if String.eqb (content r) ""
       then ret (JObj [("ok", JBool true)])
       else response_json r)
      is_HTTPStatusError
      (fun e =>
         match e with
         | HTTPStatusError r => raise (HTTPException (status_code r) (error_detail r))
         | _ => raise e
         end).

(** *** Guardrails (lines 176-198) *)

Definition _enforce_limits (symbol side : string) (price qty : float) : outcome unit :=
  let notional := PrimFloat.mul price qty in
  if PrimFloat.ltb 0 (MAX_NOTIONAL_PER_ORDER cfg)
     && PrimFloat.ltb (MAX_NOTIONAL_PER_ORDER cfg) notional
  then Raise (HTTPException 400
         (JStr ("Notional " ++ format_float py ".8f" notional
                ++ " exceeds MAX_NOTIONAL_PER_ORDER="
                ++ format_float py "" (MAX_NOTIONAL_PER_ORDER cfg))))
  else if PrimFloat.ltb 0 (MAX_QTY_PER_ORDER cfg)
          && PrimFloat.ltb (MAX_QTY_PER_ORDER cfg) qty
  then Raise (HTTPException 400
         (JStr ("Quantity " ++ format_float py "" qty
                ++ " exceeds MAX_QTY_PER_ORDER="
                ++ format_float py "" (MAX_QTY_PER_ORDER cfg))))
  else Ok tt.

Definition _get_last_price (symbol : string) : M (option float) :=
  try_except
    (d <- _public_get "/api/v3/ticker/price" (Some [("symbol", PStr symbol)]) ;;
     v <- lift (subscript d "price") ;;
     x <- lift (py_float py v) ;;
     ret (Some x))
    is_Exception
    (fun _ => ret None).

Definition _enforce_price_deviation (symbol : string) (user_price : float) : M unit :=
  if PrimFloat.leb (MAX_PRICE_DEVIATION_PCT cfg) 0 then ret tt
  else
    last <- _get_last_price symbol ;;
    match last with
    | None => ret tt
    | Some last =>
        ratio <- lift (float_div (PrimFloat.abs (PrimFloat.sub user_price last)) last) ;;
        let deviation := PrimFloat.mul ratio 100 in
        if PrimFloat.ltb (MAX_PRICE_DEVIATION_PCT cfg) deviation
        then raise (HTTPException 400
               (JStr ("Price deviation " ++ format_float py ".2f" deviation
                      ++ "% > limit " ++ format_float py "" (MAX_PRICE_DEVIATION_PCT cfg)
                      ++ "% (last=" ++ format_float py "" last ++ ")")))
        else ret tt
    end.

(** *** Routes (lines 238-287) *)

Definition limit_params (order : LimitOrderIn) : dict :=
  let params :=
    [ ("symbol", PStr (str_upper py (lo_symbol order)));
      ("side", PStr (lo_side order));
      ("type", PStr "LIMIT");
      ("timeInForce", PStr (lo_tif order));
      ("quantity", PStr (format_float py "" (lo_qty order)));
      ("price", PStr (format_float py "" (lo_price order)));
      ("newOrderRespType", PStr "RESULT") ] in
  match lo_client_id order with
  | Some id => if truthy_text (Some id)
               then dict_set params "newClientOrderId" (PStr id)
               else params
  | None => params
  end.

Definition place_limit (order : LimitOrderIn) : M json :=
  lift (_enforce_limits (lo_symbol order) (lo_side order) (lo_price order) (lo_qty order)) ;;;
  _enforce_price_deviation (lo_symbol order) (lo_price order) ;;;
  res <- _signed_request "POST" "/api/v3/order" (limit_params order) ;;
  ret (JObj [("ok", JBool true); ("binance", res)]).

Definition oco_params (oco : OCOOrderIn) : dict :=
  let params :=
    [ ("symbol", PStr (str_upper py (oco_symbol oco)));
      ("side", PStr (oco_side oco));
      ("quantity", PStr (format_float py "" (oco_quantity oco)));
      ("price", PStr (format_float py "" (oco_price oco)));
      ("stopPrice", PStr (format_float py "" (oco_stop oco)));
      ("stopLimitPrice", PStr (format_float py "" (oco_stop_limit oco)));
      ("stopLimitTimeInForce", PStr (oco_tif oco));
      ("newOrderRespType", PStr "RESULT") ] in
  match oco_client_id oco with
  | Some id => if truthy_text (Some id)
               then dict_set params "listClientOrderId" (PStr id) else params
  | None => params
  end.

Definition place_oco (oco : OCOOrderIn) : M json :=
  lift (_enforce_limits (oco_symbol oco) (oco_side oco) (oco_price oco) (oco_quantity oco)) ;;;
  _enforce_price_deviation (oco_symbol oco) (oco_price oco) ;;;
  res <- _signed_request "POST" "/api/v3/order/oco" (oco_params oco) ;;
  ret (JObj [("ok", JBool true); ("binance", res)]).

Definition cancel_params (body : CancelOrderIn) : dict :=
  let params := [("symbol", PStr (str_upper py (co_symbol body)))] in
  let params :=
    match orderId body with
    | Some n => if truthy_int (Some n) then dict_set params "orderId" (PInt n) else params
    | None => params
    end in
  match clientOrderId body with
  | Some s => if truthy_text (Some s)
              then dict_set params "origClientOrderId" (PStr s) else params
  | None => params
  end.

Definition cancel_order (body : CancelOrderIn) : M json :=
  if negb (truthy_int (orderId body)) && negb (truthy_text (clientOrderId body))
  then raise (HTTPException 400 (JStr "Provide orderId or clientOrderId"))
  else
    res <- _signed_request "DELETE" "/api/v3/order" (cancel_params body) ;;
    ret (JObj [("ok", JBool true); ("binance", res)]).

End Service.

(* ------------------------------------------------------------------ *)
(** ** Reading a trace *)

(** A request that carries the API key header is a signed call. *)
Definition carries_api_key (req : Request) : bool :=
  existsb (fun h => String.eqb (fst h) "X-MBX-APIKEY") (headers req).

(** [_sign] was called, or a signed call left for the venue. *)
Definition is_signing (ev : event) : bool :=
  match ev with
  | Tick _ => false
  | Signed _ => true
  | Exchange req _ => carries_api_key req
  end.

Definition is_exchange (ev : event) : bool :=
  match ev with
  | Exchange _ _ => true
  | _ => false
  end.

(** The requests a trace put on the wire, oldest first. *)
Fixpoint wire (tr : list event) : list Request :=
  match tr with
  | [] => []
  | Exchange req _ :: tr' => req :: wire tr'
  | _ :: tr' => wire tr'
  end.

(** How many of the venue's two order identifiers a query carries. *)
Definition identifiers_forwarded (d : dict) : nat :=
  List.length (filter (fun k => String.eqb k "orderId" || String.eqb k "origClientOrderId")
                      (dict_keys d)).

(** The specification's error kinds, as the routes raise them: a
    guardrail or a validation failure is a 400 with a text detail, a
    missing credential a 500, a failed authentication a 401. *)
Definition raises_status {A} (status : Z) (o : outcome A) : Prop :=
  exists msg, o = Raise (HTTPException status (JStr msg)).

Definition LimitExceeded {A} (o : outcome A) : Prop := raises_status 400 o.
Definition ValidationError {A} (o : outcome A) : Prop := raises_status 400 o.
Definition ConfigurationError {A} (o : outcome A) : Prop := raises_status 500 o.
Definition Unauthorized {A} (o : outcome A) : Prop := raises_status 401 o.

(** The request [_sync_time] sends. *)
Definition time_request (cfg : Config) : Request :=
  {| method := "GET";
     url := BINANCE_HTTP_BASE cfg ++ "/api/v3/time";
     query := [];
     headers := [] |}.

(** The venue's time as an answer to it carries one: a 2xx reply whose
    body decodes to an object with a [serverTime] that [int] accepts.
    Everything else is a network or a parse failure. *)
Definition remote_time_ms (w : World) (res : NetResult) : option Z :=
  match res with
  | Unreachable => None
  | Reply r =>
      if is_success r
      then match json_loads (python w) (content r) with
           | Some body =>
               match subscript body "serverTime" with
               | Ok v => match py_int (python w) v with
                         | Ok n => Some n
                         | Raise _ => None
                         end
               | Raise _ => None
               end
           | None => None
           end
      else None
  end.

(** None of the first [n] synchronisations from [st] gets a time. *)
Fixpoint syncs_all_fail (w : World) (cfg : Config) (n : nat) (st : State) : bool :=
  match n with
  | O => true
  | S n' =>
      match remote_time_ms w (venue w (trace st) (time_request cfg)) with
      | Some _ => false
      | None => syncs_all_fail w cfg n' (snd (_sync_time w cfg st))
      end
  end.

(** The request [_get_last_price] sends, and the price its answer
    carries: a 2xx reply whose body decodes to an object with a [price]
    that [float] accepts. *)
Definition ticker_request (cfg : Config) (symbol : string) : Request :=
  {| method := "GET";
     url := BINANCE_HTTP_BASE cfg ++ "/api/v3/ticker/price";
     query := [("symbol", PStr symbol)];
     headers := [] |}.

Definition last_price (w : World) (res : NetResult) : option float :=
  match res with
  | Unreachable => None
  | Reply r =>
      if is_success r
      then match json_loads (python w) (content r) with
           | Some d =>
               match subscript d "price" with
               | Ok v => match py_float (python w) v with
                         | Ok x => Some x
                         | Raise _ => None
                         end
               | Raise _ => None
               end
           | None => None
           end
      else None
  end.

(** The order in which a placement route works, for a limits check with
    result [limits], a deviation check [deviation] and the whole route
    [route], all from state [st]:
    - when the limits check raises, the route raises the same and the
      state is untouched, so the deviation check did not even fetch a
      price;
    - when it passes and the deviation check raises, the route raises the
      same and stops in the state the deviation check left, in which
      nothing was signed and no signed request sent;
    - whenever the route signs or sends a signed request, both checks
      passed, and every event of the deviation check comes before. *)
Definition checks_before_signing (limits : outcome unit) (deviation : M unit)
    (route : M json) (st : State) : Prop :=
  (forall e, limits = Raise e -> route st = (Raise e, st))
  /\ (forall e, limits = Ok tt -> fst (deviation st) = Raise e ->
        route st = (Raise e, snd (deviation st))
        /\ exists events,
             trace (snd (deviation st)) = trace st ++ events
             /\ existsb is_signing events = false)
  /\ (forall events,
        trace (snd (route st)) = trace st ++ events ->
        existsb is_signing events = true ->
        limits = Ok tt
        /\ fst (deviation st) = Ok tt
        /\ exists checked signed,
             events = checked ++ signed
             /\ trace (snd (deviation st)) = trace st ++ checked
             /\ existsb is_signing checked = false).

(** What lines 157-173 make of the venue's answer to a signed call. *)
Definition answer_outcome (w : World) (res : NetResult) : outcome json :=
  match res with
  | Unreachable => Raise RequestError
  | Reply r =>
      if is_success r
      then if String.eqb (content r) "" then Ok (JObj [("ok", JBool true)])
           else match json_loads (python w) (content r) with
                | Some j => Ok j
                | None => Raise JSONDecodeError
                end
      else Raise (HTTPException (status_code r) (error_detail w r))
  end.

Definition supported_method (m : string) : bool :=
  String.eqb m "GET" || String.eqb m "POST" || String.eqb m "DELETE".

(** The request a signed call puts on the wire. *)
Definition signed_call (cfg : Config) (method path : string) (timestamp : Z)
    (params : dict) : Request :=
  {| method := method;
     url := BINANCE_HTTP_BASE cfg ++ path;
     query := signed_params cfg timestamp params;
     headers := [("X-MBX-APIKEY", BINANCE_API_KEY cfg)] |}.

(* ------------------------------------------------------------------ *)
(** ** A small concrete world

    Enough of CPython and of the venue to run the model on examples:
    each function below agrees with the real one on the inputs the
    examples give it. *)

Definition dq : string := String (ascii_of_nat 34) "".

Definition demo_time_body : string :=
  ("{" ++ dq ++ "serverTime" ++ dq ++ ":1000000}")%string.

Definition demo_ticker_body (price : string) : string :=
  ("{" ++ dq ++ "symbol" ++ dq ++ ":" ++ dq ++ "BTCUSDT" ++ dq ++ ","
       ++ dq ++ "price" ++ dq ++ ":" ++ dq ++ price ++ dq ++ "}")%string.

Definition ascii_upper (c : ascii) : ascii :=
  let b := byte_of_ascii c in
  if (97 <=? b) && (b <=? 122) then ascii_of_N (Z.to_N (b - 32)) else c.

Fixpoint upper_ascii_text (s : string) : string :=
  match s with
  | EmptyString => EmptyString
  | String c s' => String (ascii_upper c) (upper_ascii_text s')
  end.

(** [format(x, spec)] on the floats the examples print. *)
Definition demo_float_table : list (string * float * string) :=
  [ ("", 1%float, "1.0"); ("", 2%float, "2.0"); ("", 50%float, "50.0");
    ("", 50.5%float, "50.5"); ("", 100%float, "100.0"); ("", 5%float, "5.0");
    ("", 110%float, "110.0"); (".8f", 101%float, "101.00000000");
    (".2f", 10%float, "10.00") ].

Definition demo_python : Python := {|
  json_loads := fun s =>
    if String.eqb s demo_time_body
    then Some (JObj [("serverTime", JInt 1000000)])
    else if String.eqb s (demo_ticker_body "0.00000000")
    then Some (JObj [("symbol", JStr "BTCUSDT"); ("price", JStr "0.00000000")])
    else if String.eqb s (demo_ticker_body "100.00000000")
    then Some (JObj [("symbol", JStr "BTCUSDT"); ("price", JStr "100.00000000")])
    else None;
  float_of_text := fun s =>
    if String.eqb s "0.00000000" then Some 0%float
    else if String.eqb s "100.00000000" then Some 100%float
    else None;
  int_of_text := fun _ => None;
  format_float := fun spec x =>
    match find (fun row => String.eqb (fst (fst row)) spec
                           && PrimFloat.eqb (snd (fst row)) x)
               demo_float_table with
    | Some row => snd row
    | None => ""
    end;
  str_upper := upper_ascii_text
|}.

Definition ends_with (suffix s : string) : bool :=
  let n := String.length s in
  let k := String.length suffix in
  String.eqb (String.substring (n - k) k s) suffix.

(** A venue that answers the time and ticker endpoints and accepts
    everything else with an empty body; the clock reads 999000 first
    and 999500 from then on. *)
Definition demo_world (ticker_price : string) : World := {|
  python := demo_python;
  wall_clock := fun history =>
    if existsb (fun ev => match ev with Tick _ => true | _ => false end) history
    then 999500 else 999000;
  venue := fun _ req =>
    if ends_with "/api/v3/time" (url req)
    then Reply {| status_code := 200; content := demo_time_body |}
    else if ends_with "/api/v3/ticker/price" (url req)
    then Reply {| status_code := 200; content := demo_ticker_body ticker_price |}
    else Reply {| status_code := 200; content := "" |}
|}.

(** A world whose network is down. *)
Definition offline_world : World := {|
  python := demo_python;
  wall_clock := fun _ => 999000;
  venue := fun _ _ => Unreachable
|}.

Definition demo_config : Config := {|
  BINANCE_ENV := "testnet";
  BINANCE_HTTP_BASE := "https://testnet.binance.vision";
  BINANCE_API_KEY := "key";
  BINANCE_API_SECRET := "secret";
  AGENT_KEY := "agent";
  RECV_WINDOW_MS := 5000;
  MAX_NOTIONAL_PER_ORDER := 100%float;
  MAX_QTY_PER_ORDER := 50%float;
  MAX_PRICE_DEVIATION_PCT := 5%float
|}.

(** [demo_config] without the API secret. *)
Definition no_secret_config : Config := {|
  BINANCE_ENV := "testnet";
  BINANCE_HTTP_BASE := "https://testnet.binance.vision";
  BINANCE_API_KEY := "key";
  BINANCE_API_SECRET := "";
  AGENT_KEY := "agent";
  RECV_WINDOW_MS := 5000;
  MAX_NOTIONAL_PER_ORDER := 0%float;
  MAX_QTY_PER_ORDER := 0%float;
  MAX_PRICE_DEVIATION_PCT := 0%float
|}.

(** Same secret and window as [demo_config], everything else changed. *)
Definition other_config : Config := {|
  BINANCE_ENV := "mainnet";
  BINANCE_HTTP_BASE := "https://api.binance.com";
  BINANCE_API_KEY := "another key";
  BINANCE_API_SECRET := "secret";
  AGENT_KEY := "";
  RECV_WINDOW_MS := 5000;
  MAX_NOTIONAL_PER_ORDER := 0%float;
  MAX_QTY_PER_ORDER := 0%float;
  MAX_PRICE_DEVIATION_PCT := 0%float
|}.

(* ------------------------------------------------------------------ *)
(** ** The rest of the module *)

(** *** Configuration from the environment (lines 12-32)

    [environ] is [os.environ]; [str_lower] is [str.lower].  The numbers
    are read by the runtime's [int] and [float], and the first text they
    refuse ends the import with [ValueError]. *)
Definition environ := string -> option string.

Definition getenv (env : environ) (name default : string) : string :=
  match env name with
  | Some v => v
  | None => default
  end.

Definition read_int (py : Python) (text : string) : outcome Z :=
  match int_of_text py text with
  | Some n => Ok n
  | None => Raise ValueError
  end.

Definition read_float (py : Python) (text : string) : outcome float :=
  match float_of_text py text with
  | Some x => Ok x
  | None => Raise ValueError
  end.

Definition mainnet_base : string := "https://api.binance.com".
Definition testnet_base : string := "https://testnet.binance.vision".

Definition load_config (py : Python) (str_lower : string -> string) (env : environ)
  : outcome Config :=
  let binance_env := str_lower (getenv env "BINANCE_ENV" "mainnet") in
  let base :=
    if truthy_text (env "BINANCE_HTTP_BASE")
    then getenv env "BINANCE_HTTP_BASE" ""
    else if String.eqb binance_env "mainnet" then mainnet_base else testnet_base in
  let api_key := getenv env "BINANCE_API_KEY" "" in
  let api_secret := getenv env "BINANCE_API_SECRET" "" in
  let agent_key := getenv env "AGENT_KEY" "" in
  match read_int py (getenv env "RECV_WINDOW_MS" "5000") with
  | Raise e => Raise e
  | Ok window =>
      match read_float py (getenv env "MAX_NOTIONAL_PER_ORDER" "0") with
      | Raise e => Raise e
      | Ok max_notional =>
          match read_float py (getenv env "MAX_QTY_PER_ORDER" "0") with
          | Raise e => Raise e
          | Ok max_qty =>
              match read_float py (getenv env "MAX_PRICE_DEVIATION_PCT" "0") with
              | Raise e => Raise e
              | Ok max_deviation =>
                  Ok {| BINANCE_ENV := binance_env;
                        BINANCE_HTTP_BASE := base;
                        BINANCE_API_KEY := api_key;
                        BINANCE_API_SECRET := api_secret;
                        AGENT_KEY := agent_key;
                        RECV_WINDOW_MS := window;
                        MAX_NOTIONAL_PER_ORDER := max_notional;
                        MAX_QTY_PER_ORDER := max_qty;
                        MAX_PRICE_DEVIATION_PCT := max_deviation |}
              end
          end
      end
  end.

(** *** Field validators (lines 63-66, 78-81, 103-106) *)

Definition pos (v : float) : outcome float :=
  if PrimFloat.leb v 0 then Raise ValueError else Ok v.

Definition sym (v : string) : outcome string :=
  if String.eqb v "" then Raise ValueError else Ok v.

(** *** The read-only routes (lines 203-234) *)

Definition health (cfg : Config) : M json :=
  fun st =>
    (Ok (JObj [ ("ok", JBool true);
                ("env", JStr (BINANCE_ENV cfg));
                ("base", JStr (BINANCE_HTTP_BASE cfg));
                ("time_offset_ms", JInt (time_offset_ms st)) ]),
     st).

Definition exchange_info (w : World) (cfg : Config) (symbol : option string) : M json :=
  let params :=
    match symbol with
    | Some s => if truthy_text (Some s) then Some [("symbol", PStr s)] else None
    | None => None
    end in
  _public_get w cfg "/api/v3/exchangeInfo" params.

Definition open_orders (w : World) (cfg : Config) (symbol : option string) : M json :=
  let params :=
    match symbol with
    | Some s => if truthy_text (Some s) then [("symbol", PStr s)] else []
    | None => []
    end in
  _signed_request w cfg "GET" "/api/v3/openOrders" params.

(** *** Balances (lines 217-229)

    The route works on whatever JSON the venue returned, so method calls
    and iteration can fail with [AttributeError], a class the rest of the
    module never meets. *)
Inductive py_error :=
| Builtin (e : exn)
| AttributeError.

Inductive attempt (A : Type) :=
| Done (a : A)
| Failed (e : py_error).
Arguments Done {A} a.
Arguments Failed {A} e.

Definition attempt_of {A} (o : outcome A) : attempt A :=
  match o with
  | Ok a => Done a
  | Raise e => Failed (Builtin e)
  end.

(** [v.get(key, default)]: only a dict has the method. *)
Definition method_get (v : json) (key : string) (default : json) : attempt json :=
  match v with
  | JObj fields =>
      Done (match assoc key fields with
            | Some x => x
            | None => default
            end)
  | _ => Failed AttributeError
  end.

(** [for b in v]: a list gives its items, a dict its keys, a text its
    characters (each a text again); nothing else can be iterated.  A
    text is cut here byte by byte; the route fails on the first piece of
    a text whatever it holds, so the cut cannot be told from Python's. *)
Definition iterate (v : json) : attempt (list json) :=
  match v with
  | JArr items => Done items
  | JObj fields => Done (map (fun kv => JStr (fst kv)) fields)
  | JStr s => Done (map (fun c => JStr (String c EmptyString)) (list_ascii_of_string s))
  | JNull | JBool _ | JInt _ | JFloat _ => Failed (Builtin TypeError)
  end.

(** [s.split(",")]. *)
Fixpoint split_commas (s : string) : list string :=
  match s with
  | EmptyString => [EmptyString]
  | String c s' =>
      if Ascii.eqb c ","%char then EmptyString :: split_commas s'
      else match split_commas s' with
           | piece :: rest => String c piece :: rest
           | [] => [String c EmptyString]
           end
  end.

(** [{a.strip().upper() for a in assets.split(",") if a.strip()}], as
    the list of its members. *)
Definition wanted_assets (py : Python) (str_strip : string -> string)
    (assets : string) : list string :=
  map (fun a => str_upper py (str_strip a))
      (filter (fun a => negb (String.eqb (str_strip a) "")) (split_commas assets)).

(** [b.get("asset", "").upper() in wanted]. *)
Definition is_wanted (py : Python) (wanted : list string) (b : json) : attempt bool :=
  match method_get b "asset" (JStr "") with
  | Failed e => Failed e
  | Done (JStr s) => Done (existsb (String.eqb (str_upper py s)) wanted)
  | Done _ => Failed AttributeError
  end.

Fixpoint keep_wanted (py : Python) (wanted : list string) (bals : list json)
  : attempt (list json) :=
  match bals with
  | [] => Done []
  | b :: rest =>
      match is_wanted py wanted b with
      | Failed e => Failed e
      | Done keep =>
          match keep_wanted py wanted rest with
          | Failed e => Failed e
          | Done kept => Done (if keep then b :: kept else kept)
          end
      end
  end.

(** One turn of the loop: [None] for a balance that is zero on both
    sides, else the entry to append. *)
Definition balance_entry (py : Python) (b : json) : attempt (option json) :=
  match subscript b "free" with
  | Raise e => Failed (Builtin e)
  | Ok free_v =>
      match py_float py free_v with
      | Raise e => Failed (Builtin e)
      | Ok free =>
          match subscript b "locked" with
          | Raise e => Failed (Builtin e)
          | Ok locked_v =>
              match py_float py locked_v with
              | Raise e => Failed (Builtin e)
              | Ok locked =>
                  if negb (PrimFloat.eqb free 0) || negb (PrimFloat.eqb locked 0)
                  then match subscript b "asset" with
                       | Raise e => Failed (Builtin e)
                       | Ok asset =>
                           Done (Some (JObj [ ("asset", asset);
                                              ("free", JFloat free);
                                              ("locked", JFloat locked);
                                              ("total", JFloat (PrimFloat.add free locked)) ]))
                       end
                  else Done None
              end
          end
      end
  end.

Fixpoint balance_entries (py : Python) (bals : list json) : attempt (list json) :=
  match bals with
  | [] => Done []
  | b :: rest =>
      match balance_entry py b with
      | Failed e => Failed e
      | Done entry =>
          match balance_entries py rest with
          | Failed e => Failed e
          | Done out =>
              Done (match entry with
                    | Some x => x :: out
                    | None => out
                    end)
          end
      end
  end.

(** Lines 220-229, on the data the signed call returned. *)
Definition balances_view (py : Python) (str_strip : string -> string)
    (assets : option string) (data : json) : attempt json :=
  match method_get data "balances" (JArr []) with
  | Failed e => Failed e
  | Done bals =>
      let filtered :=
        if truthy_text assets
        then match iterate bals with
             | Failed e => Failed e
             | Done items =>
                 keep_wanted py
                   (wanted_assets py str_strip
                      (match assets with Some a => a | None => "" end))
                   items
             end
        else iterate bals in
      match filtered with
      | Failed e => Failed e
      | Done items =>
          match balance_entries py items with
          | Failed e => Failed e
          | Done out => Done (JObj [("balances", JArr out)])
          end
      end
  end.

Definition balances (w : World) (cfg : Config) (str_strip : string -> string)
    (assets : option string) : State -> attempt json * State :=
  fun st =>
    match _signed_request w cfg "GET" "/api/v3/account" [] st with
    | (Ok data, st') => (balances_view (python w) str_strip assets data, st')
    | (Raise e, st') => (Failed (Builtin e), st')
    end.

(** *** Counting signed calls *)

(** The requests among [events] that carry the API key. *)
Definition signed_requests (events : list event) : list Request :=
  filter carries_api_key (wire events).

(** From [st] to [st'] the clock offset was left alone and at most one
    signed request was sent. *)
Definition one_call_at_most (st st' : State) : Prop :=
  time_offset_ms st' = time_offset_ms st
  /\ exists events,
       trace st' = trace st ++ events
       /\ (List.length (signed_requests events) <= 1)%nat.

(** *** Reading the balances route's result *)

(** An entry as the loop builds it, for a balance that is not zero on
    both sides. *)
Definition nonzero_balance_entry (entry : json) : Prop :=
  exists asset free locked,
    entry = JObj [ ("asset", asset); ("free", JFloat free);
                   ("locked", JFloat locked);
                   ("total", JFloat (PrimFloat.add free locked)) ]
    /\ PrimFloat.eqb free 0 && PrimFloat.eqb locked 0 = false.

(** Its asset is a text whose upper-case form is one of [wanted]. *)
Definition asset_among (py : Python) (wanted : list string) (entry : json) : Prop :=
  exists s, subscript entry "asset" = Ok (JStr s) /\ In (str_upper py s) wanted.

(** [demo_python] reading also the numbers a configuration holds. *)
Definition config_python : Python := {|
  json_loads := json_loads demo_python;
  float_of_text := fun s =>
    if String.eqb s "0" then Some 0%float
    else if String.eqb s "250.5" then Some 250.5%float
    else float_of_text demo_python s;
  int_of_text := fun s =>
    if String.eqb s "5000" then Some 5000
    else if String.eqb s "10000" then Some 10000
    else None;
  format_float := format_float demo_python;
  str_upper := str_upper demo_python
|}.

(** An environment that sets the base and a notional cap only. *)
Definition demo_environ : environ :=
  fun name =>
    if String.eqb name "BINANCE_ENV" then Some "Testnet"
    else if String.eqb name "BINANCE_HTTP_BASE" then Some "http://localhost:9000"
    else if String.eqb name "MAX_NOTIONAL_PER_ORDER" then Some "250.5"
    else None.

(** An account as the venue reports it: one funded asset and one that
    is zero on both sides. *)
Definition demo_account : json :=
  JObj [ ("balances",
          JArr [ JObj [("asset", JStr "BTCUSDT"); ("free", JStr "100.00000000");
                       ("locked", JStr "0.00000000")];
                 JObj [("asset", JStr "ETH"); ("free", JStr "0.00000000");
                       ("locked", JStr "0.00000000")] ]) ].

(** The field [key] of a route's result, when the route returned an
    object that has it. *)
Definition subscript_of_outcome (o : outcome json) (key : string) : option json :=
  match o with
  | Ok (JObj fields) => assoc key fields
  | _ => None
  end.

(* ================================================================== *)
(** * Properties *)

(** ** The runtime models agree with reference values *)

Example sha256_abc :
  hex_of_bytes (SHA256.digest (encode_utf8 "abc"))
  = "ba7816bf8f01cfea414140de5dae2223b00361a396177a9cb410ff61f20015ad".
Proof. vm_compute. reflexivity. Qed.

(** RFC 4231, test case 2. *)
Example hmac_rfc4231_case2 :
  HMAC.hexdigest (encode_utf8 "Jefe") (encode_utf8 "what do ya want for nothing?")
  = "5bdcc146bf60754e6a042426089575c75a003f089d2739839dec58b964ec3843".
Proof. vm_compute. reflexivity. Qed.

(** A key longer than one block is hashed first. *)
Example hmac_long_key :
  HMAC.hexdigest (repeat 107 100) (encode_utf8 "abc")
  = "b58b2b694fdba0dd76da3ebe99174f728d327560f36ece224e90867972479922".
Proof. vm_compute. reflexivity. Qed.

Example urlencode_sample :
  urlencode [("symbol", PStr "BTC USDT/x~"); ("orderId", PInt 120);
             ("n", PInt (-7)); ("z", PInt 0)]
  = "symbol=BTC+USDT%2Fx~&orderId=120&n=-7&z=0".
Proof. vm_compute. reflexivity. Qed.

(** ** Float comparisons *)

Lemma SFcompare_Eq_sym (x y : spec_float) :
  SFcompare x y = Some Eq -> SFcompare y x = Some Eq.
Proof.
  destruct x as [sx | sx | | sx mx ex], y as [sy | sy | | sy my ey]; simpl;
    try discriminate; try reflexivity;
    try (destruct sx; discriminate); try (destruct sy; discriminate).
  - destruct sx, sy; try discriminate; reflexivity.
  - destruct sx, sy; try discriminate;
      destruct (Z.compare_spec ex ey) as [He | He | He]; try discriminate;
      subst ey; rewrite Z.compare_refl; intro H;
      injection H as H;
      assert (Hm : Pos.compare mx my = Eq)
        by (unfold Pos.compare; destruct (PosDef.Pos.compare_cont Eq mx my);
            simpl in H; congruence);
      apply Pos.compare_eq in Hm; subst my;
      change (PosDef.Pos.compare_cont Eq mx mx) with (Pos.compare mx mx);
      rewrite Pos.compare_refl; reflexivity.
Qed.

Lemma float_eqb_ltb (a b : float) :
  PrimFloat.eqb a b = true -> PrimFloat.ltb a b = false /\ PrimFloat.ltb b a = false.
Proof.
  rewrite eqb_spec, !ltb_spec. unfold SFeqb, SFltb. intro H.
  destruct (SFcompare (Prim2SF a) (Prim2SF b)) as [[ | | ] | ] eqn:E; try discriminate.
  rewrite (SFcompare_Eq_sym _ _ E). split; reflexivity.
Qed.

Lemma float_zero_not_positive (a : float) :
  PrimFloat.eqb a 0 = true -> PrimFloat.ltb 0 a = false.
Proof. intro H. apply (float_eqb_ltb a 0 H). Qed.

(** ** Guardrails: the notional and quantity caps *)

Section Limits.

Variable w : World.
Variable cfg : Config.

Local Abbreviation max_notional := (MAX_NOTIONAL_PER_ORDER cfg).
Local Abbreviation max_quantity := (MAX_QTY_PER_ORDER cfg).
Local Abbreviation check := (_enforce_limits w cfg).

(** The first test of [_enforce_limits] decides alone when it fires. *)
Lemma enforce_limits_notional (symbol side : string) (price qty : float) :
  (0 <? max_notional)%float = true ->
  (max_notional <? price * qty)%float = true ->
  LimitExceeded (check symbol side price qty).
Proof.
  intros Hon Hover. unfold _enforce_limits. rewrite Hon, Hover. simpl.
  eexists. reflexivity.
Qed.

Lemma enforce_limits_quantity (symbol side : string) (price qty : float) :
  (0 <? max_quantity)%float = true ->
  (max_quantity <? qty)%float = true ->
  LimitExceeded (check symbol side price qty).
Proof.
  intros Hon Hover. unfold _enforce_limits.
  destruct ((0 <? max_notional)%float && (max_notional <? price * qty)%float).
  - eexists. reflexivity.
  - rewrite Hon, Hover. simpl. eexists. reflexivity.
Qed.

(** It passes exactly when neither test fires. *)
Lemma enforce_limits_pass_iff (symbol side : string) (price qty : float) :
  check symbol side price qty = Ok tt <->
  ((0 <? max_notional)%float && (max_notional <? price * qty)%float = false
   /\ (0 <? max_quantity)%float && (max_quantity <? qty)%float = false).
Proof.
  unfold _enforce_limits.
  destruct ((0 <? max_notional)%float && (max_notional <? price * qty)%float);
    [ split; [ discriminate | intros [H _]; discriminate ] | ].
  destruct ((0 <? max_quantity)%float && (max_quantity <? qty)%float);
    [ split; [ discriminate | intros [_ H]; discriminate ] | ].
  split; auto.
Qed.

(** C1. [_enforce_limits] fails with LimitExceeded when the notional cap
    is on and [price * qty] exceeds it, or when the quantity cap is on
    and [qty] exceeds it; the comparison is strict, so an order whose
    notional equals the notional cap and whose quantity equals the
    quantity cap passes, and at either boundary the other cap alone
    decides; with both caps at 0 every order passes. *)
Theorem enforce_limits_spec (symbol side : string) (price qty : float) :
  let notional := (price * qty)%float in
  let result := check symbol side price qty in
  ((0 <? max_notional)%float = true /\ (max_notional <? notional)%float = true
   \/ (0 <? max_quantity)%float = true /\ (max_quantity <? qty)%float = true
   -> LimitExceeded result)
  /\ ((notional =? max_notional)%float = true ->
      (qty =? max_quantity)%float = true -> result = Ok tt)
  /\ ((notional =? max_notional)%float = true ->
      (0 <? max_quantity)%float && (max_quantity <? qty)%float = false ->
      result = Ok tt)
  /\ ((qty =? max_quantity)%float = true ->
      (0 <? max_notional)%float && (max_notional <? notional)%float = false ->
      result = Ok tt)
  /\ ((max_notional =? 0)%float = true ->
      (max_quantity =? 0)%float = true -> result = Ok tt)
  /\ (result = Ok tt \/ LimitExceeded result).
Proof.
  intros notional result. subst notional result.
  repeat split.
  - intros [[Hon Hover] | [Hon Hover]].
    + now apply enforce_limits_notional.
    + now apply enforce_limits_quantity.
  - intros Hn Hq. apply enforce_limits_pass_iff.
    destruct (float_eqb_ltb _ _ Hn) as [_ Hn'].
    destruct (float_eqb_ltb _ _ Hq) as [_ Hq'].
    rewrite Hn', Hq', !andb_false_r. auto.
  - intros Hn Hq. apply enforce_limits_pass_iff.
    destruct (float_eqb_ltb _ _ Hn) as [_ Hn'].
    rewrite Hn', andb_false_r. auto.
  - intros Hq Hn. apply enforce_limits_pass_iff.
    destruct (float_eqb_ltb _ _ Hq) as [_ Hq'].
    rewrite Hq', andb_false_r. auto.
  - intros Hn Hq. apply enforce_limits_pass_iff.
    rewrite (float_zero_not_positive _ Hn), (float_zero_not_positive _ Hq). auto.
  - unfold _enforce_limits.
    destruct ((0 <? max_notional)%float && (max_notional <? price * qty)%float);
      [ right; eexists; reflexivity | ].
    destruct ((0 <? max_quantity)%float && (max_quantity <? qty)%float);
      [ right; eexists; reflexivity | left; reflexivity ].
Qed.

End Limits.

(** The caps of [demo_config] are 100 and 50: an order of 2 x 50 sits on
    both boundaries and passes, one of 2 x 50.5 is over the notional cap,
    one of 1 x 50.5 over the quantity cap only. *)
Example enforce_limits_boundary :
  _enforce_limits (demo_world "100.00000000") demo_config "BTCUSDT" "BUY" 2 50 = Ok tt
  /\ _enforce_limits (demo_world "100.00000000") demo_config "BTCUSDT" "BUY" 2 50.5
     = Raise (HTTPException 400
         (JStr "Notional 101.00000000 exceeds MAX_NOTIONAL_PER_ORDER=100.0"))
  /\ LimitExceeded
       (_enforce_limits (demo_world "100.00000000") demo_config "BTCUSDT" "BUY" 1 50.5).
Proof.
  split; [ | split ].
  - vm_compute. reflexivity.
  - vm_compute. reflexivity.
  - apply enforce_limits_quantity; vm_compute; reflexivity.
Qed.

(** ** Dictionaries *)

Lemma dict_get_set_same (d : dict) (k : string) (v : pyval) :
  dict_get (dict_set d k v) k = Some v.
Proof.
  induction d as [ | [k' v'] d IH]; simpl.
  - now rewrite String.eqb_refl.
  - destruct (String.eqb k' k) eqn:E; simpl; rewrite E; auto.
Qed.

Lemma dict_get_set_other (d : dict) (k k' : string) (v : pyval) :
  k <> k' -> dict_get (dict_set d k v) k' = dict_get d k'.
Proof.
  intro Hne. induction d as [ | [k0 v0] d IH]; simpl.
  - destruct (String.eqb_spec k k'); [ contradiction | reflexivity ].
  - destruct (String.eqb_spec k0 k) as [-> | Hk]; simpl.
    + destruct (String.eqb_spec k k'); [ contradiction | reflexivity ].
    + destruct (String.eqb k0 k'); auto.
Qed.

Lemma dict_set_fresh (d : dict) (k : string) (v : pyval) :
  dict_get d k = None -> dict_set d k v = d ++ [(k, v)].
Proof.
  induction d as [ | [k' v'] d IH]; simpl; intro H; [ reflexivity | ].
  destruct (String.eqb k' k); [ discriminate | ].
  now rewrite IH.
Qed.

Lemma dict_keys_set_present (d : dict) (k : string) (v v0 : pyval) :
  dict_get d k = Some v0 -> dict_keys (dict_set d k v) = dict_keys d.
Proof.
  unfold dict_keys. induction d as [ | [k' v'] d IH]; simpl; intro H; [ discriminate | ].
  destruct (String.eqb k' k); simpl; [ reflexivity | ].
  now rewrite IH.
Qed.

(** ** Running a signed call *)

Ltac run_monad :=
  unfold bind, ret, raise, lift, log, get_offset, set_offset, try_except; simpl.

Lemma timestamp_ms_run (w : World) (st : State) :
  _timestamp_ms w st
  = (Ok (wall_clock w (trace st) + time_offset_ms st),
     {| time_offset_ms := time_offset_ms st;
        trace := trace st ++ [Tick (wall_clock w (trace st))] |}).
Proof. reflexivity. Qed.

Lemma sign_request_run (w : World) (cfg : Config) (params : dict) (st : State) :
  let t := wall_clock w (trace st) in
  let ts := t + time_offset_ms st in
  sign_request w cfg params st
  = (Ok (signed_params cfg ts params),
     {| time_offset_ms := time_offset_ms st;
        trace := trace st ++ [Tick t; Signed (signed_text cfg ts params)] |}).
Proof.
  unfold sign_request, _timestamp_ms, now_ms. run_monad.
  now rewrite <- app_assoc.
Qed.

(** With credentials and a supported method a signed call reads the
    clock, signs, and sends exactly one request; what it returns is read
    off the venue's answer. *)
Lemma signed_request_run (w : World) (cfg : Config) (method path : string)
    (params : dict) (st : State) :
  BINANCE_API_KEY cfg <> "" -> BINANCE_API_SECRET cfg <> "" ->
  supported_method method = true ->
  let t := wall_clock w (trace st) in
  let ts := t + time_offset_ms st in
  let req := signed_call cfg method path ts params in
  let before := trace st ++ [Tick t; Signed (signed_text cfg ts params)] in
  let res := venue w before req in
  _signed_request w cfg method path params st
  = (answer_outcome w res,
     {| time_offset_ms := time_offset_ms st;
        trace := before ++ [Exchange req res] |}).
Proof.
  intros Hkey Hsecret Hm t ts req before res.
  unfold _signed_request.
  destruct (String.eqb_spec (BINANCE_API_KEY cfg) ""); [ contradiction | ].
  destruct (String.eqb_spec (BINANCE_API_SECRET cfg) ""); [ contradiction | ].
  simpl. unfold bind at 1. rewrite sign_request_run.
  fold t ts before. unfold supported_method in Hm.
  unfold try_except, bind. rewrite Hm. unfold send. simpl.
  fold (signed_call cfg method path ts params). fold req. fold res.
  unfold answer_outcome.
  destruct res as [r | ]; [ | reflexivity ].
  unfold raise_for_status. destruct (is_success r) eqn:Hs; unfold ret, raise; simpl.
  - destruct (String.eqb (content r) ""); [ reflexivity | ].
    unfold response_json.
    destruct (json_loads (python w) (content r)); reflexivity.
  - reflexivity.
Qed.

Lemma signed_request_unconfigured (w : World) (cfg : Config) (method path : string)
    (params : dict) (st : State) :
  BINANCE_API_KEY cfg = "" \/ BINANCE_API_SECRET cfg = "" ->
  _signed_request w cfg method path params st
  = (Raise (HTTPException 500 (JStr "BINANCE_API_KEY/BINANCE_API_SECRET not set")), st).
Proof.
  intro H. unfold _signed_request.
  destruct H as [H | H]; rewrite H; simpl.
  - reflexivity.
  - rewrite orb_true_r. reflexivity.
Qed.

(** The method is looked at only after the parameters are signed. *)
Lemma signed_request_unsupported (w : World) (cfg : Config) (method path : string)
    (params : dict) (st : State) :
  BINANCE_API_KEY cfg <> "" -> BINANCE_API_SECRET cfg <> "" ->
  supported_method method = false ->
  let t := wall_clock w (trace st) in
  let ts := t + time_offset_ms st in
  _signed_request w cfg method path params st
  = (Raise (HTTPException 500 (JStr ("Unsupported method " ++ method))),
     {| time_offset_ms := time_offset_ms st;
        trace := trace st ++ [Tick t; Signed (signed_text cfg ts params)] |}).
Proof.
  intros Hkey Hsecret Hm t ts.
  unfold _signed_request.
  destruct (String.eqb_spec (BINANCE_API_KEY cfg) ""); [ contradiction | ].
  destruct (String.eqb_spec (BINANCE_API_SECRET cfg) ""); [ contradiction | ].
  simpl. unfold bind at 1. rewrite sign_request_run.
  unfold supported_method in Hm.
  unfold try_except, bind. rewrite Hm. reflexivity.
Qed.

(** ** Credentials *)

(** C6. A signed call made while the API key or the API secret is unset
    fails with ConfigurationError (a 500), and leaves the state as it
    found it: the clock was not read, nothing was signed, no request was
    sent. *)
Theorem signed_request_needs_credentials (w : World) (cfg : Config)
    (method path : string) (params : dict) (st : State) :
  BINANCE_API_KEY cfg = "" \/ BINANCE_API_SECRET cfg = "" ->
  _signed_request w cfg method path params st
  = (Raise (HTTPException 500 (JStr "BINANCE_API_KEY/BINANCE_API_SECRET not set")), st)
  /\ ConfigurationError (fst (_signed_request w cfg method path params st))
  /\ trace (snd (_signed_request w cfg method path params st)) = trace st.
Proof.
  intro H. rewrite (signed_request_unconfigured w cfg method path params st H).
  simpl. repeat split. eexists. reflexivity.
Qed.


Lemma signed_request_needs_credentials_witness :
  _signed_request (demo_world "100.00000000") no_secret_config
    "POST" "/api/v3/order" [("symbol", PStr "BTCUSDT")] initial_state
  = (Raise (HTTPException 500 (JStr "BINANCE_API_KEY/BINANCE_API_SECRET not set")),
     initial_state).
Proof.
  apply (signed_request_needs_credentials (demo_world "100.00000000") no_secret_config
           "POST" "/api/v3/order" [("symbol", PStr "BTCUSDT")] initial_state).
  right. reflexivity.
Defined.

(** ** The request signer *)

(** Whatever the input, the two fields are set and the digest is over
    the dictionary as it stands when [_sign] is called. *)
Lemma signed_params_fields (cfg : Config) (ts : Z) (params : dict) :
  let covered := dict_set (dict_set params "timestamp" (PInt ts))
                          "recvWindow" (PInt (RECV_WINDOW_MS cfg)) in
  dict_get covered "timestamp" = Some (PInt ts)
  /\ dict_get covered "recvWindow" = Some (PInt (RECV_WINDOW_MS cfg))
  /\ (forall k, k <> "timestamp" -> k <> "recvWindow" ->
                dict_get covered k = dict_get params k)
  /\ dict_get (signed_params cfg ts params) "signature"
     = Some (PStr (HMAC.hexdigest (encode_utf8 (BINANCE_API_SECRET cfg))
                                  (encode_utf8 (urlencode covered)))).
Proof.
  intro covered. subst covered. repeat split.
  - rewrite dict_get_set_other by discriminate. apply dict_get_set_same.
  - apply dict_get_set_same.
  - intros k H1 H2.
    rewrite dict_get_set_other by congruence.
    now rewrite dict_get_set_other by congruence.
  - unfold signed_params, _sign. apply dict_get_set_same.
Qed.

(** C5, for an input without a [signature] key.  [sign_request] reads
    the timestamp as [_timestamp_ms] gives it, sets [timestamp] to it and
    [recvWindow] to the configured window, keeps every other parameter,
    and appends last a [signature] that is the hexadecimal HMAC-SHA256,
    keyed by the API secret, of the query-string encoding of all the
    parameters before it, the two added ones included. *)
Theorem sign_request_spec (w : World) (cfg : Config) (params : dict) (st : State) :
  dict_get params "signature" = None ->
  let t := wall_clock w (trace st) in
  let ts := t + time_offset_ms st in
  let covered := dict_set (dict_set params "timestamp" (PInt ts))
                          "recvWindow" (PInt (RECV_WINDOW_MS cfg)) in
  let digest := HMAC.hexdigest (encode_utf8 (BINANCE_API_SECRET cfg))
                               (encode_utf8 (urlencode covered)) in
  fst (_timestamp_ms w st) = Ok ts
  /\ sign_request w cfg params st
     = (Ok (covered ++ [("signature", PStr digest)]),
        {| time_offset_ms := time_offset_ms st;
           trace := trace st ++ [Tick t; Signed (urlencode covered)] |})
  /\ dict_get covered "timestamp" = Some (PInt ts)
  /\ dict_get covered "recvWindow" = Some (PInt (RECV_WINDOW_MS cfg))
  /\ dict_get covered "signature" = None
  /\ (forall k, k <> "timestamp" -> k <> "recvWindow" ->
                dict_get covered k = dict_get params k).
Proof.
  intros Hfresh t ts covered digest.
  destruct (signed_params_fields cfg ts params) as (Hts & Hrw & Hkeep & _).
  fold covered in Hts, Hrw, Hkeep.
  assert (Hnone : dict_get covered "signature" = None)
    by (rewrite Hkeep by discriminate; exact Hfresh).
  repeat split; auto.
  rewrite sign_request_run. fold t ts.
  unfold signed_params, signed_text, _sign. fold covered. fold digest.
  now rewrite (dict_set_fresh covered "signature" (PStr digest) Hnone).
Qed.

Lemma sign_request_spec_witness :
  sign_request (demo_world "100.00000000") demo_config
    [("symbol", PStr "BTCUSDT"); ("orderId", PInt 5)] initial_state
  = (Ok [("symbol", PStr "BTCUSDT"); ("orderId", PInt 5);
         ("timestamp", PInt 999000); ("recvWindow", PInt 5000);
         ("signature",
          PStr (HMAC.hexdigest (encode_utf8 "secret")
                  (encode_utf8 "symbol=BTCUSDT&orderId=5&timestamp=999000&recvWindow=5000")))],
     {| time_offset_ms := 0;
        trace := [Tick 999000;
                  Signed "symbol=BTCUSDT&orderId=5&timestamp=999000&recvWindow=5000"] |}).
Proof.
  apply (sign_request_spec (demo_world "100.00000000") demo_config
           [("symbol", PStr "BTCUSDT"); ("orderId", PInt 5)] initial_state).
  reflexivity.
Defined.

(** When the input already has a [signature] key the claim fails: the
    old value is part of the text that is hashed, and the new digest
    takes its place at the front instead of being appended. *)
Lemma sign_request_with_signature_key :
  let run := sign_request (demo_world "100.00000000") demo_config
               [("signature", PStr "x")] initial_state in
  fst run
  = Ok [("signature",
         PStr (HMAC.hexdigest (encode_utf8 "secret")
                 (encode_utf8 "signature=x&timestamp=999000&recvWindow=5000")));
        ("timestamp", PInt 999000); ("recvWindow", PInt 5000)]
  /\ trace (snd run)
     = [Tick 999000; Signed "signature=x&timestamp=999000&recvWindow=5000"]
  /\ ~ (exists covered digest,
          fst run = Ok (covered ++ [("signature", PStr digest)])).
Proof.
  split; [ vm_compute; reflexivity | split; [ vm_compute; reflexivity | ] ].
  intros (covered & digest & H).
  cbv zeta in H. rewrite sign_request_run in H.
  cbv [fst signed_params dict_set String.eqb Ascii.eqb Bool.eqb] in H.
  injection H as H.
  apply (f_equal (@rev _)) in H. rewrite rev_app_distr in H.
  cbn [rev app] in H. injection H as _ H _. discriminate H.
Qed.

(** Two configurations that share the secret sign alike. *)
Lemma sign_same_secret (cfg1 cfg2 : Config) (params : dict) :
  BINANCE_API_SECRET cfg1 = BINANCE_API_SECRET cfg2 ->
  _sign cfg1 params = _sign cfg2 params.
Proof. unfold _sign. now intros ->. Qed.

(** C8. Two runs of the signer on the same parameters, with the same
    secret and validity window, the same clock offset and the same
    timestamp, return the same dictionary, and so the same signature;
    nothing else of the configuration, the world or the history
    matters. *)
Theorem sign_request_deterministic (w1 w2 : World) (cfg1 cfg2 : Config)
    (params : dict) (st1 st2 : State) :
  BINANCE_API_SECRET cfg1 = BINANCE_API_SECRET cfg2 ->
  RECV_WINDOW_MS cfg1 = RECV_WINDOW_MS cfg2 ->
  time_offset_ms st1 = time_offset_ms st2 ->
  fst (_timestamp_ms w1 st1) = fst (_timestamp_ms w2 st2) ->
  fst (sign_request w1 cfg1 params st1) = fst (sign_request w2 cfg2 params st2).
Proof.
  intros Hsecret Hwindow Hoffset Hts.
  rewrite !timestamp_ms_run in Hts. simpl in Hts. injection Hts as Hts.
  rewrite !sign_request_run. cbn [fst]. f_equal.
  rewrite Hts. unfold signed_params. rewrite Hwindow.
  f_equal. f_equal. now apply sign_same_secret.
Qed.


Lemma sign_request_deterministic_witness :
  fst (sign_request (demo_world "100.00000000") demo_config
         [("symbol", PStr "BTCUSDT")] initial_state)
  = fst (sign_request offline_world other_config
           [("symbol", PStr "BTCUSDT")]
           {| time_offset_ms := 0;
              trace := [Signed "earlier"] |}).
Proof.
  apply (sign_request_deterministic (demo_world "100.00000000") offline_world
           demo_config other_config [("symbol", PStr "BTCUSDT")] initial_state
           {| time_offset_ms := 0; trace := [Signed "earlier"] |});
    reflexivity.
Defined.

(** ** Authentication *)

(** The dependency itself, on the value FastAPI hands it. *)
Lemma require_agent_key_iff (cfg : Config) (x_agent_key : option string) :
  (require_agent_key cfg x_agent_key = Ok true
   <-> AGENT_KEY cfg <> "" /\ x_agent_key = Some (AGENT_KEY cfg))
  /\ (require_agent_key cfg x_agent_key = Ok true
      \/ require_agent_key cfg x_agent_key
         = Raise (HTTPException 401 (JStr "Unauthorized"))).
Proof.
  split; [ split | ].
  - unfold require_agent_key. intro H.
    destruct (String.eqb_spec (AGENT_KEY cfg) ""); simpl in H; [ discriminate H | ].
    destruct x_agent_key as [k | ]; simpl in H; [ | discriminate H ].
    destruct (String.eqb_spec k (AGENT_KEY cfg)); simpl in H; [ | discriminate H ].
    split; [ assumption | now subst k ].
  - intros [Hkey ->]. unfold require_agent_key.
    destruct (String.eqb_spec (AGENT_KEY cfg) ""); [ contradiction | ].
    now rewrite String.eqb_refl.
  - unfold require_agent_key.
    destruct (_ || _); [ right | left ]; reflexivity.
Qed.

(** C10, with the header the code reads.  A request to a route that
    requires authentication reaches the route's body iff [AGENT_KEY] is
    non-empty and the request's [x_agent_key] header (underscores, not
    hyphens) is present and equal to it; otherwise the route raises a 401
    and nothing else happens.  With [AGENT_KEY] empty every request to
    such a route gets the 401, whatever it sends. *)
Theorem authentication_spec (cfg : Config) (e : Endpoint)
    (request_headers : list (string * string)) :
  auth_required e = true ->
  forall (A : Type) (body : M A) (st : State),
    (AGENT_KEY cfg <> ""
     /\ header_param "x_agent_key" request_headers = Some (AGENT_KEY cfg) ->
     serve cfg e request_headers body st = body st)
    /\ (~ (AGENT_KEY cfg <> ""
           /\ header_param "x_agent_key" request_headers = Some (AGENT_KEY cfg)) ->
        serve cfg e request_headers body st
        = (Raise (HTTPException 401 (JStr "Unauthorized")), st))
    /\ (AGENT_KEY cfg = "" ->
        Unauthorized (fst (serve cfg e request_headers body st))
        /\ snd (serve cfg e request_headers body st) = st).
Proof.
  intros He A body st. unfold serve. rewrite He. unfold bind, lift.
  destruct (require_agent_key_iff cfg (header_param "x_agent_key" request_headers))
    as [Hiff Hcases].
  split; [ | split ].
  - intro Hpass. apply Hiff in Hpass. now rewrite Hpass.
  - intro Hfail. destruct Hcases as [Hok | Hno].
    + apply Hiff in Hok. contradiction.
    + now rewrite Hno.
  - intro Hempty. destruct Hcases as [Hok | Hno].
    + apply Hiff in Hok. destruct Hok as [Hne _]. contradiction.
    + rewrite Hno. split; [ eexists | ]; reflexivity.
Qed.

Lemma authentication_spec_witness :
  serve demo_config OrderCancel [("Content-Type", "application/json");
                                 ("X_Agent_Key", "agent")]
    (ret JNull) initial_state
  = (Ok JNull, initial_state).
Proof.
  apply (authentication_spec demo_config OrderCancel
           [("Content-Type", "application/json"); ("X_Agent_Key", "agent")]
           eq_refl json (ret JNull) initial_state).
  split; [ discriminate | reflexivity ].
Defined.

(** A request that sends the right secret under the name [X-Agent-Key]
    is refused: that is not the header the dependency is bound to. *)
Lemma authentication_hyphen_header_refused :
  header_param "x_agent_key" [("X-Agent-Key", "agent")] = None
  /\ AGENT_KEY demo_config = "agent"
  /\ serve demo_config OrderCancel [("X-Agent-Key", "agent")] (ret JNull) initial_state
     = (Raise (HTTPException 401 (JStr "Unauthorized")), initial_state).
Proof. repeat split; reflexivity. Qed.

Example require_agent_key_cases :
  require_agent_key demo_config (Some "agent") = Ok true
  /\ Unauthorized (require_agent_key demo_config (Some "Agent"))
  /\ Unauthorized (require_agent_key demo_config None)
  /\ Unauthorized (require_agent_key other_config (Some ""))
  /\ Unauthorized (require_agent_key other_config None).
Proof. repeat split; try reflexivity; eexists; reflexivity. Qed.

(** ** Cancelling an order *)

(** The parameters [cancel_order] builds, by which identifiers count. *)
Lemma cancel_params_cases (w : World) (body : CancelOrderIn) :
  let symbol := ("symbol", PStr (str_upper (python w) (co_symbol body))) in
  cancel_params w body
  = symbol
    :: (match orderId body with
        | Some n => if n =? 0 then [] else [("orderId", PInt n)]
        | None => []
        end)
    ++ (match clientOrderId body with
        | Some s => if String.eqb s "" then [] else [("origClientOrderId", PStr s)]
        | None => []
        end).
Proof.
  unfold cancel_params, truthy_int, truthy_text.
  destruct (orderId body) as [n | ]; [ destruct (n =? 0) | ];
    (destruct (clientOrderId body) as [s | ]; [ destruct (String.eqb s "") | ]);
    reflexivity.
Qed.

(** The keys the signer adds are not order identifiers. *)
Lemma signed_params_get (cfg : Config) (ts : Z) (params : dict) (k : string) :
  k <> "timestamp" -> k <> "recvWindow" -> k <> "signature" ->
  dict_get (signed_params cfg ts params) k = dict_get params k.
Proof.
  intros H1 H2 H3. unfold signed_params.
  rewrite !dict_get_set_other by congruence. reflexivity.
Qed.

(** A signed call adds at most one request to the trace, and that one
    carries [signed_params] of the parameters it was given. *)
Lemma signed_request_exchanges (w : World) (cfg : Config) (method path : string)
    (params : dict) (st : State) :
  exists events,
    trace (snd (_signed_request w cfg method path params st)) = trace st ++ events
    /\ time_offset_ms (snd (_signed_request w cfg method path params st))
       = time_offset_ms st
    /\ forall req res, In (Exchange req res) events ->
         req = signed_call cfg method path
                 (wall_clock w (trace st) + time_offset_ms st) params.
Proof.
  destruct (String.eqb_spec (BINANCE_API_KEY cfg) "") as [Hkey | Hkey].
  { rewrite signed_request_unconfigured by auto.
    exists []. simpl. rewrite app_nil_r. repeat split. intros ? ? []. }
  destruct (String.eqb_spec (BINANCE_API_SECRET cfg) "") as [Hsecret | Hsecret].
  { rewrite signed_request_unconfigured by auto.
    exists []. simpl. rewrite app_nil_r. repeat split. intros ? ? []. }
  destruct (supported_method method) eqn:Hm.
  - rewrite signed_request_run by assumption. simpl.
    eexists. rewrite <- app_assoc. simpl. repeat split.
    intros rq rs [H | [H | [H | []]]]; try discriminate H. now injection H.
  - rewrite signed_request_unsupported by assumption. simpl.
    eexists. repeat split.
    intros rq rs [H | [H | []]]; discriminate H.
Qed.

Lemma bind_ret_run {A B : Type} (m : M A) (f : A -> B) (st : State) :
  bind m (fun x => ret (f x)) st
  = (match fst (m st) with
     | Ok a => Ok (f a)
     | Raise e => Raise e
     end, snd (m st)).
Proof. unfold bind, ret. destruct (m st) as [[a | e] st']; reflexivity. Qed.

Lemma identifiers_forwarded_set (d : dict) (k : string) (v : pyval) :
  String.eqb k "orderId" || String.eqb k "origClientOrderId" = false ->
  identifiers_forwarded (dict_set d k v) = identifiers_forwarded d.
Proof.
  intro Hk. unfold identifiers_forwarded, dict_keys.
  induction d as [ | [k' v'] d IH]; simpl.
  - now rewrite Hk.
  - destruct (String.eqb k' k); simpl; [ reflexivity | ].
    destruct (String.eqb k' "orderId" || String.eqb k' "origClientOrderId");
      simpl; now rewrite IH.
Qed.

(** Signing neither adds nor removes an order identifier. *)
Lemma identifiers_forwarded_signed (cfg : Config) (ts : Z) (params : dict) :
  identifiers_forwarded (signed_params cfg ts params) = identifiers_forwarded params.
Proof.
  unfold signed_params.
  now rewrite !identifiers_forwarded_set by reflexivity.
Qed.

Lemma cancel_order_rejected (w : World) (cfg : Config) (body : CancelOrderIn)
    (st : State) :
  truthy_int (orderId body) = false -> truthy_text (clientOrderId body) = false ->
  cancel_order w cfg body st
  = (Raise (HTTPException 400 (JStr "Provide orderId or clientOrderId")), st).
Proof. intros H1 H2. unfold cancel_order. now rewrite H1, H2. Qed.

Lemma cancel_order_forwarded (w : World) (cfg : Config) (body : CancelOrderIn)
    (st : State) :
  truthy_int (orderId body) || truthy_text (clientOrderId body) = true ->
  cancel_order w cfg body st
  = (match fst (_signed_request w cfg "DELETE" "/api/v3/order" (cancel_params w body) st) with
     | Ok res => Ok (JObj [("ok", JBool true); ("binance", res)])
     | Raise e => Raise e
     end,
     snd (_signed_request w cfg "DELETE" "/api/v3/order" (cancel_params w body) st)).
Proof.
  intro H. unfold cancel_order.
  rewrite <- negb_orb, H. simpl. apply bind_ret_run.
Qed.

(** C4, as the code has it.  Without a usable [orderId] and without a
    usable [clientOrderId] the route raises the 400 for a missing
    identifier and touches nothing, so no request is made.  With both
    supplied it does not choose: the one signed DELETE it sends carries
    [orderId] and, after it, [origClientOrderId]; the route's result is
    the venue's answer to that request. *)
Theorem cancel_order_spec (w : World) (cfg : Config) (body : CancelOrderIn)
    (st : State) :
  (truthy_int (orderId body) = false -> truthy_text (clientOrderId body) = false ->
   ValidationError (fst (cancel_order w cfg body st))
   /\ snd (cancel_order w cfg body st) = st)
  /\ (forall n s,
        orderId body = Some n -> n <> 0 ->
        clientOrderId body = Some s -> s <> "" ->
        BINANCE_API_KEY cfg <> "" -> BINANCE_API_SECRET cfg <> "" ->
        let params := [ ("symbol", PStr (str_upper (python w) (co_symbol body)));
                        ("orderId", PInt n); ("origClientOrderId", PStr s) ] in
        let t := wall_clock w (trace st) in
        let ts := t + time_offset_ms st in
        let req := signed_call cfg "DELETE" "/api/v3/order" ts params in
        let before := trace st ++ [Tick t; Signed (signed_text cfg ts params)] in
        let res := venue w before req in
        cancel_order w cfg body st
        = (match answer_outcome w res with
           | Ok j => Ok (JObj [("ok", JBool true); ("binance", j)])
           | Raise e => Raise e
           end,
           {| time_offset_ms := time_offset_ms st;
              trace := before ++ [Exchange req res] |})
        /\ dict_get (query req) "orderId" = Some (PInt n)
        /\ dict_get (query req) "origClientOrderId" = Some (PStr s)
        /\ identifiers_forwarded (query req) = 2%nat).
Proof.
  split.
  - intros H1 H2. rewrite cancel_order_rejected by assumption.
    split; [ eexists; reflexivity | reflexivity ].
  - intros n s Hn Hn0 Hs Hs0 Hkey Hsecret params t ts req before res.
    assert (Hp : cancel_params w body = params).
    { rewrite cancel_params_cases, Hn, Hs.
      destruct (Z.eqb_spec n 0); [ contradiction | ].
      destruct (String.eqb_spec s ""); [ contradiction | ]. reflexivity. }
    split; [ | split; [ | split ] ].
    + rewrite cancel_order_forwarded.
      * rewrite Hp, signed_request_run by auto. reflexivity.
      * rewrite Hn. simpl. destruct (Z.eqb_spec n 0); [ contradiction | reflexivity ].
    + unfold req, signed_call. cbn [query].
      rewrite signed_params_get by discriminate. reflexivity.
    + unfold req, signed_call. cbn [query].
      rewrite signed_params_get by discriminate. reflexivity.
    + unfold req, signed_call. cbn [query].
      rewrite identifiers_forwarded_signed. reflexivity.
Qed.

(** With [orderId = 5] and [clientOrderId = "abc"] the request that
    leaves carries two identifiers, not one. *)
Lemma cancel_order_forwards_both :
  let body := {| co_symbol := "btcusdt"; orderId := Some 5;
                 clientOrderId := Some "abc" |} in
  let run := cancel_order (demo_world "100.00000000") demo_config body initial_state in
  map query (wire (trace (snd run)))
  = [ [ ("symbol", PStr "BTCUSDT"); ("orderId", PInt 5);
        ("origClientOrderId", PStr "abc");
        ("timestamp", PInt 999000); ("recvWindow", PInt 5000);
        ("signature",
         PStr "6b88afd82bbb34aaa05e8fc312e0d591925335d91a31bfe7db0b301c0247eff1") ] ]
  /\ map identifiers_forwarded (map query (wire (trace (snd run)))) <> [1%nat].
Proof.
  split.
  - vm_compute. reflexivity.
  - vm_compute. discriminate.
Qed.

(** What [cancel_params] holds under each identifier key. *)
Lemma cancel_params_get (w : World) (body : CancelOrderIn) :
  dict_get (cancel_params w body) "orderId"
  = (match orderId body with
     | Some n => if n =? 0 then None else Some (PInt n)
     | None => None
     end)
  /\ dict_get (cancel_params w body) "origClientOrderId"
     = (match clientOrderId body with
        | Some s => if String.eqb s "" then None else Some (PStr s)
        | None => None
        end).
Proof.
  rewrite cancel_params_cases.
  destruct (orderId body) as [n | ]; [ destruct (n =? 0) | ];
    (destruct (clientOrderId body) as [s | ]; [ destruct (String.eqb s "") | ]);
    split; reflexivity.
Qed.

(** C9. [cancel_order] reads a falsy identifier as a missing one.  A body
    whose [orderId] is absent or 0 and whose [clientOrderId] is absent or
    empty (so [orderId = 0] alone, or [clientOrderId = ""] alone) gets
    the 400 for a missing identifier, with the state untouched.  And
    whatever the body, a request this route sends carries [orderId] only
    when a non-zero one was supplied and [origClientOrderId] only when a
    non-empty one was: a falsy identifier never reaches the venue. *)
Theorem cancel_order_falsy_identifiers (w : World) (cfg : Config)
    (body : CancelOrderIn) (st : State) :
  ((orderId body = None \/ orderId body = Some 0) ->
   (clientOrderId body = None \/ clientOrderId body = Some "") ->
   cancel_order w cfg body st
   = (Raise (HTTPException 400 (JStr "Provide orderId or clientOrderId")), st))
  /\ exists events,
       trace (snd (cancel_order w cfg body st)) = trace st ++ events
       /\ forall req res, In (Exchange req res) events ->
            dict_get (query req) "orderId"
            = (match orderId body with
               | Some n => if n =? 0 then None else Some (PInt n)
               | None => None
               end)
            /\ dict_get (query req) "origClientOrderId"
               = (match clientOrderId body with
                  | Some s => if String.eqb s "" then None else Some (PStr s)
                  | None => None
                  end)
            /\ dict_get (query req) "orderId" <> Some (PInt 0)
            /\ dict_get (query req) "origClientOrderId" <> Some (PStr "").
Proof.
  split.
  - intros Ho Hc. apply cancel_order_rejected.
    + destruct Ho as [-> | ->]; reflexivity.
    + destruct Hc as [-> | ->]; reflexivity.
  - destruct (truthy_int (orderId body) || truthy_text (clientOrderId body)) eqn:Hany.
    + rewrite cancel_order_forwarded by assumption. cbn [snd].
      destruct (signed_request_exchanges w cfg "DELETE" "/api/v3/order"
                  (cancel_params w body) st) as (events & Htrace & _ & Hreq).
      exists events. split; [ exact Htrace | ].
      intros req res Hin. rewrite (Hreq req res Hin).
      unfold signed_call. cbn [query].
      rewrite !signed_params_get by discriminate.
      destruct (cancel_params_get w body) as [-> ->].
      repeat split.
      * destruct (orderId body) as [n | ]; [ | discriminate ].
        destruct (Z.eqb_spec n 0); [ discriminate | congruence ].
      * destruct (clientOrderId body) as [s | ]; [ | discriminate ].
        destruct (String.eqb_spec s ""); [ discriminate | congruence ].
    + apply orb_false_elim in Hany. destruct Hany as [H1 H2].
      rewrite cancel_order_rejected by assumption.
      exists []. cbn [snd]. rewrite app_nil_r. split; [ reflexivity | ].
      intros req res [].
Qed.

Example cancel_order_zero_id :
  cancel_order (demo_world "100.00000000") demo_config
    {| co_symbol := "BTCUSDT"; orderId := Some 0; clientOrderId := None |}
    initial_state
  = (Raise (HTTPException 400 (JStr "Provide orderId or clientOrderId")), initial_state)
  /\ cancel_order (demo_world "100.00000000") demo_config
       {| co_symbol := "BTCUSDT"; orderId := None; clientOrderId := Some "" |}
       initial_state
     = (Raise (HTTPException 400 (JStr "Provide orderId or clientOrderId")), initial_state)
  /\ map query (wire (trace (snd
       (cancel_order (demo_world "100.00000000") demo_config
          {| co_symbol := "BTCUSDT"; orderId := Some 0; clientOrderId := Some "abc" |}
          initial_state))))
     = [ [ ("symbol", PStr "BTCUSDT"); ("origClientOrderId", PStr "abc");
           ("timestamp", PInt 999000); ("recvWindow", PInt 5000);
           ("signature",
            PStr (HMAC.hexdigest (encode_utf8 "secret")
                    (encode_utf8 "symbol=BTCUSDT&origClientOrderId=abc&timestamp=999000&recvWindow=5000"))) ] ].
Proof. repeat split; vm_compute; reflexivity. Qed.

(** ** The clock synchroniser *)

(** One synchronisation, case by case on what the venue answers. *)
Lemma sync_time_run (w : World) (cfg : Config) (st : State) :
  let req := time_request cfg in
  let res := venue w (trace st) req in
  let after := trace st ++ [Exchange req res] in
  let local := wall_clock w after in
  _sync_time w cfg st
  = (Ok tt,
     match remote_time_ms w res with
     | Some remote =>
         {| time_offset_ms := remote - local; trace := after ++ [Tick local] |}
     | None =>
         {| time_offset_ms := time_offset_ms st;
            trace := match res with
                     | Reply r =>
                         if is_success r
                         then match json_loads (python w) (content r) with
                              | Some body =>
                                  match subscript body "serverTime" with
                                  | Ok _ => after ++ [Tick local]
                                  | Raise _ => after
                                  end
                              | None => after
                              end
                         else after
                     | Unreachable => after
                     end |}
     end).
Proof.
  intros req res after local.
  unfold _sync_time, try_except, bind, send.
  fold (time_request cfg). fold req. fold res. cbn [time_offset_ms trace]. fold after.
  unfold remote_time_ms.
  destruct res as [r | ]; [ | reflexivity ].
  unfold raise_for_status. destruct (is_success r); [ | reflexivity ].
  unfold ret at 1. unfold response_json.
  destruct (json_loads (python w) (content r)) as [body | ]; [ | reflexivity ].
  unfold ret at 1. unfold lift at 1.
  destruct (subscript body "serverTime") as [v | e]; [ | reflexivity ].
  unfold now_ms. cbn [time_offset_ms trace]. fold local. unfold lift.
  destruct (py_int (python w) v) as [remote | e]; reflexivity.
Qed.

Lemma sync_time_failure_keeps_offset (w : World) (cfg : Config) (st : State) :
  remote_time_ms w (venue w (trace st) (time_request cfg)) = None ->
  fst (_sync_time w cfg st) = Ok tt
  /\ time_offset_ms (snd (_sync_time w cfg st)) = time_offset_ms st.
Proof.
  intro H. rewrite sync_time_run. cbv zeta. rewrite H. split; reflexivity.
Qed.

Lemma sync_rounds_all_fail (w : World) (cfg : Config) (n : nat) :
  forall st, syncs_all_fail w cfg n st = true ->
    fst (sync_rounds w cfg n st) = Ok tt
    /\ time_offset_ms (snd (sync_rounds w cfg n st)) = time_offset_ms st.
Proof.
  induction n as [ | n IH]; intros st H; simpl in *.
  - split; reflexivity.
  - destruct (remote_time_ms w (venue w (trace st) (time_request cfg))) eqn:E;
      [ discriminate | ].
    destruct (sync_time_failure_keeps_offset w cfg st E) as [Hok Hoff].
    destruct (IH _ H) as [IHok IHoff].
    unfold bind. destruct (_sync_time w cfg st) as [[[] | e] st1]; simpl in *;
      [ | discriminate ].
    split; [ exact IHok | congruence ].
Qed.

(** C7. [_sync_time] never raises.  When the venue's answer carries a
    time, the stored offset becomes that time minus the local clock as
    read once the answer is in; on any network or parse failure the
    offset stays what it was.  The offset starts at 0 and is still 0
    after any number of synchronisations none of which got a time. *)
Theorem sync_time_spec (w : World) (cfg : Config) (st : State) (n : nat) :
  let res := venue w (trace st) (time_request cfg) in
  let local := wall_clock w (trace st ++ [Exchange (time_request cfg) res]) in
  fst (_sync_time w cfg st) = Ok tt
  /\ (forall remote, remote_time_ms w res = Some remote ->
        time_offset_ms (snd (_sync_time w cfg st)) = remote - local)
  /\ (remote_time_ms w res = None ->
        time_offset_ms (snd (_sync_time w cfg st)) = time_offset_ms st)
  /\ time_offset_ms initial_state = 0
  /\ (syncs_all_fail w cfg n initial_state = true ->
        fst (sync_rounds w cfg n initial_state) = Ok tt
        /\ time_offset_ms (snd (sync_rounds w cfg n initial_state)) = 0).
Proof.
  intros res local.
  split; [ now rewrite sync_time_run | ].
  split; [ | split; [ | split ] ].
  - intros remote H. rewrite sync_time_run. cbv zeta. fold res. rewrite H. reflexivity.
  - intro H. now apply sync_time_failure_keeps_offset.
  - reflexivity.
  - intro H. now apply sync_rounds_all_fail.
Qed.

(** The specification's example: a sync that sees 1000000 at local time
    999000 stores 1000; the next timestamp, at local 999500, is 1000500.
    With the network down three rounds leave the offset at 0. *)
Example sync_then_timestamp :
  time_offset_ms (snd (_sync_time (demo_world "100.00000000") demo_config initial_state))
  = 1000
  /\ fst (_timestamp_ms (demo_world "100.00000000")
            (snd (_sync_time (demo_world "100.00000000") demo_config initial_state)))
     = Ok 1000500
  /\ syncs_all_fail offline_world demo_config 3 initial_state = true
  /\ time_offset_ms (snd (sync_rounds offline_world demo_config 3 initial_state)) = 0.
Proof. repeat split; vm_compute; reflexivity. Qed.

(** ** Guardrails: the price-deviation check *)

(** [_get_last_price] never raises: it sends one request and returns
    the price the answer carries, if any. *)
Lemma get_last_price_run (w : World) (cfg : Config) (symbol : string) (st : State) :
  let req := ticker_request cfg symbol in
  let res := venue w (trace st) req in
  _get_last_price w cfg symbol st
  = (Ok (last_price w res),
     {| time_offset_ms := time_offset_ms st;
        trace := trace st ++ [Exchange req res] |}).
Proof.
  intros req res.
  unfold _get_last_price, _public_get, try_except, bind, send.
  fold (ticker_request cfg symbol). fold req. fold res. cbn [time_offset_ms trace].
  unfold last_price.
  destruct res as [r | ]; [ | reflexivity ].
  unfold raise_for_status. destruct (is_success r); [ | reflexivity ].
  unfold ret at 1. unfold response_json.
  destruct (json_loads (python w) (content r)) as [d | ]; [ | reflexivity ].
  unfold ret at 1. unfold lift.
  destruct (subscript d "price") as [v | e]; [ | reflexivity ].
  destruct (py_float (python w) v) as [x | e]; reflexivity.
Qed.

(** The deviation check, case by case. *)
Lemma enforce_price_deviation_run (w : World) (cfg : Config) (symbol : string)
    (user_price : float) (st : State) :
  let limit := MAX_PRICE_DEVIATION_PCT cfg in
  let req := ticker_request cfg symbol in
  let res := venue w (trace st) req in
  let fetched := {| time_offset_ms := time_offset_ms st;
                    trace := trace st ++ [Exchange req res] |} in
  _enforce_price_deviation w cfg symbol user_price st
  = if (limit <=? 0)%float then (Ok tt, st)
    else match last_price w res with
         | None => (Ok tt, fetched)
         | Some last =>
             if (last =? 0)%float then (Raise ZeroDivisionError, fetched)
             else
               let deviation := (abs (user_price - last) / last * 100)%float in
               if (limit <? deviation)%float
               then (Raise (HTTPException 400
                      (JStr ("Price deviation "
                             ++ format_float (python w) ".2f" deviation
                             ++ "% > limit " ++ format_float (python w) "" limit
                             ++ "% (last=" ++ format_float (python w) "" last ++ ")"))),
                     fetched)
               else (Ok tt, fetched)
         end.
Proof.
  intros limit req res fetched.
  unfold _enforce_price_deviation. fold limit.
  destruct (limit <=? 0)%float; [ reflexivity | ].
  unfold bind at 1. rewrite get_last_price_run. fold req res fetched.
  destruct (last_price w res) as [last | ]; [ | reflexivity ].
  unfold bind, lift, float_div.
  destruct (last =? 0)%float; [ reflexivity | ].
  cbv zeta. destruct (limit <? _)%float; reflexivity.
Qed.

(** The check leaves the offset alone and adds at most the ticker
    request, which is not a signed one. *)
Lemma enforce_price_deviation_events (w : World) (cfg : Config) (symbol : string)
    (user_price : float) (st : State) :
  exists events,
    trace (snd (_enforce_price_deviation w cfg symbol user_price st))
    = trace st ++ events
    /\ existsb is_signing events = false.
Proof.
  rewrite enforce_price_deviation_run. cbv zeta.
  destruct (_ <=? 0)%float.
  { exists []. simpl. now rewrite app_nil_r. }
  exists [Exchange (ticker_request cfg symbol)
            (venue w (trace st) (ticker_request cfg symbol))].
  split; [ | reflexivity ].
  destruct (last_price w _) as [last | ]; [ | reflexivity ].
  destruct (last =? 0)%float; [ reflexivity | ].
  destruct (_ <? _)%float; reflexivity.
Qed.

(** ** Order placement: checks first, signing after *)

Lemma signed_request_extends (w : World) (cfg : Config) (method path : string)
    (params : dict) (st : State) :
  exists events,
    trace (snd (_signed_request w cfg method path params st)) = trace st ++ events.
Proof.
  destruct (signed_request_exchanges w cfg method path params st)
    as (events & H & _).
  now exists events.
Qed.

(** Both placement routes have this shape. *)
Lemma checks_before_signing_shape (limits : outcome unit) (deviation : M unit)
    (signed : M json) (wrap : json -> json) (st : State) :
  (exists events,
     trace (snd (deviation st)) = trace st ++ events
     /\ existsb is_signing events = false) ->
  (forall st1, exists events, trace (snd (signed st1)) = trace st1 ++ events) ->
  checks_before_signing limits deviation
    (lift limits ;;; deviation ;;; res <- signed ;; ret (wrap res)) st.
Proof.
  intros (checked & Hdev & Hquiet) Hsigned.
  unfold checks_before_signing. split; [ | split ].
  - intros e ->. reflexivity.
  - intros e -> He. split; [ | now exists checked ].
    unfold bind at 1. unfold lift. unfold bind at 1.
    destruct (deviation st) as [[[] | e'] st1]; simpl in He; [ discriminate | ].
    now injection He as ->.
  - intros events Htrace Hsome.
    destruct limits as [[] | e].
    + unfold bind at 1 in Htrace. unfold lift in Htrace.
      unfold bind at 1 in Htrace.
      destruct (deviation st) as [[[] | e] st1] eqn:Ed; cbn [snd fst] in *.
      * rewrite bind_ret_run in Htrace. cbn [snd] in Htrace.
        destruct (Hsigned st1) as (signed_events & Hs).
        rewrite Hs, Hdev, <- app_assoc in Htrace.
        apply app_inv_head in Htrace. subst events.
        repeat split. now exists checked, signed_events.
      * rewrite Hdev in Htrace. apply app_inv_head in Htrace. subst events.
        congruence.
    + cbn in Htrace. rewrite <- (app_nil_r (trace st)) in Htrace at 1.
      apply app_inv_head in Htrace. subst events. discriminate.
Qed.

(** C2. For a limit order and for an OCO order alike: the notional and
    quantity check comes first and, failing, ends the route with nothing
    done; the price-deviation check comes second and, failing, ends the
    route with nothing signed and no signed request sent; signing and
    dispatch happen only after both passed. *)
Theorem placement_checks_before_signing (w : World) (cfg : Config) (st : State) :
  (forall order : LimitOrderIn,
     checks_before_signing
       (_enforce_limits w cfg (lo_symbol order) (lo_side order)
          (lo_price order) (lo_qty order))
       (_enforce_price_deviation w cfg (lo_symbol order) (lo_price order))
       (place_limit w cfg order) st)
  /\ (forall oco : OCOOrderIn,
        checks_before_signing
          (_enforce_limits w cfg (oco_symbol oco) (oco_side oco)
             (oco_price oco) (oco_quantity oco))
          (_enforce_price_deviation w cfg (oco_symbol oco) (oco_price oco))
          (place_oco w cfg oco) st).
Proof.
  split; intro order.
  - unfold place_limit. apply checks_before_signing_shape.
    + apply enforce_price_deviation_events.
    + intro st1. apply signed_request_extends.
  - unfold place_oco. apply checks_before_signing_shape.
    + apply enforce_price_deviation_events.
    + intro st1. apply signed_request_extends.
Qed.

(** In the demo world (caps 100 and 50, deviation 5%, last price 100):
    2 x 50.5 fails the first check and nothing at all happens, although
    its price is fine; 110 x 0.5 fails the second and only the ticker was
    asked; 100 x 1 goes out, after the ticker, as one signed POST.  With
    the network down the price check is skipped and the order is sent. *)
Example place_limit_traces :
  let order price qty :=
    {| lo_symbol := "btcusdt"; lo_side := "BUY"; lo_price := price; lo_qty := qty;
       lo_tif := "GTC"; lo_client_id := None |} in
  let run w price qty := place_limit w demo_config (order price qty) initial_state in
  let shape r := map is_signing (trace (snd r)) in
  snd (run (demo_world "100.00000000") 2 50.5)%float = initial_state
  /\ LimitExceeded (fst (run (demo_world "100.00000000") 2 50.5)%float)
  /\ shape (run (demo_world "100.00000000") 110 0.5)%float = [false]
  /\ LimitExceeded (fst (run (demo_world "100.00000000") 110 0.5)%float)
  /\ shape (run (demo_world "100.00000000") 100 1)%float = [false; false; true; true]
  /\ map method (wire (trace (snd (run (demo_world "100.00000000") 100 1)%float)))
     = ["GET"; "POST"]
  /\ shape (run offline_world 100 1)%float = [false; false; true; true]
  /\ snd (run offline_world 2 50.5)%float = initial_state.
Proof.
  cbv zeta. repeat split; try (vm_compute; reflexivity);
    eexists; vm_compute; reflexivity.
Qed.

(** The price-deviation check when the last price is not zero: it does
    nothing when the limit is not positive; otherwise it asks for the
    last price once, passes when none can be had, and else fails with
    LimitExceeded exactly when [|user_price - last| / last * 100]
    exceeds the limit. *)
Theorem enforce_price_deviation_spec (w : World) (cfg : Config) (symbol : string)
    (user_price : float) (st : State) :
  let limit := MAX_PRICE_DEVIATION_PCT cfg in
  let res := venue w (trace st) (ticker_request cfg symbol) in
  let result := fst (_enforce_price_deviation w cfg symbol user_price st) in
  ((limit <=? 0)%float = true ->
   _enforce_price_deviation w cfg symbol user_price st = (Ok tt, st))
  /\ ((limit <=? 0)%float = false ->
      wire (trace (snd (_enforce_price_deviation w cfg symbol user_price st)))
      = wire (trace st) ++ [ticker_request cfg symbol]
      /\ (last_price w res = None -> result = Ok tt)
      /\ (forall last, last_price w res = Some last -> (last =? 0)%float = false ->
            let deviation := (abs (user_price - last) / last * 100)%float in
            ((limit <? deviation)%float = true -> LimitExceeded result)
            /\ ((limit <? deviation)%float = false -> result = Ok tt))).
Proof.
  intros limit res result. subst result.
  rewrite enforce_price_deviation_run. fold limit res.
  split; [ intros ->; reflexivity | ].
  intros ->.
  assert (Hwire : forall tr req rs, wire (tr ++ [Exchange req rs]) = wire tr ++ [req]).
  { intros tr req rs. induction tr as [ | [ | | ] tr IH]; simpl; congruence. }
  split; [ | split ].
  - destruct (last_price w res) as [last | ]; [ | apply Hwire ].
    destruct (last =? 0)%float; [ apply Hwire | ].
    cbv zeta. destruct (limit <? _)%float; apply Hwire.
  - intros ->. reflexivity.
  - intros last -> ->. cbv zeta. split; intros ->; [ eexists | ]; reflexivity.
Qed.

Example enforce_price_deviation_over :
  LimitExceeded
    (fst (_enforce_price_deviation (demo_world "100.00000000") demo_config
            "BTCUSDT" 110 initial_state))
  /\ fst (_enforce_price_deviation (demo_world "100.00000000") demo_config
            "BTCUSDT" 105 initial_state) = Ok tt
  /\ fst (_enforce_price_deviation offline_world demo_config
            "BTCUSDT" 110 initial_state) = Ok tt.
Proof.
  split; [ eexists; vm_compute; reflexivity | split; vm_compute; reflexivity ].
Qed.

(** C3, the case the claim's formula leaves open.  When the venue quotes
    a last price of 0 the division raises [ZeroDivisionError]: the check
    neither passes nor fails with LimitExceeded, and the placement route
    ends with that exception, nothing signed and nothing sent. *)
Theorem price_deviation_zero_last_price :
  let w := demo_world "0.00000000" in
  let order := {| lo_symbol := "BTCUSDT"; lo_side := "BUY"; lo_price := 100%float;
                  lo_qty := 1%float; lo_tif := "GTC"; lo_client_id := None |} in
  last_price w (venue w [] (ticker_request demo_config "BTCUSDT")) = Some 0%float
  /\ fst (_enforce_price_deviation w demo_config "BTCUSDT" 100 initial_state)
     = Raise ZeroDivisionError
  /\ fst (place_limit w demo_config order initial_state) = Raise ZeroDivisionError
  /\ map is_signing (trace (snd (place_limit w demo_config order initial_state)))
     = [false].
Proof. cbv zeta. repeat split; vm_compute; reflexivity. Qed.

(** The same for any world: a zero last price, of either sign, ends the
    check with [ZeroDivisionError] whenever the limit is in force. *)
Lemma enforce_price_deviation_zero (w : World) (cfg : Config) (symbol : string)
    (user_price : float) (st : State) (last : float) :
  (MAX_PRICE_DEVIATION_PCT cfg <=? 0)%float = false ->
  last_price w (venue w (trace st) (ticker_request cfg symbol)) = Some last ->
  (last =? 0)%float = true ->
  fst (_enforce_price_deviation w cfg symbol user_price st) = Raise ZeroDivisionError.
Proof.
  intros Hon Hlast Hzero. rewrite enforce_price_deviation_run. cbv zeta.
  now rewrite Hon, Hlast, Hzero.
Qed.

(** ** Further properties of the pipeline *)

Lemma wire_app (tr events : list event) :
  wire (tr ++ events) = wire tr ++ wire events.
Proof.
  induction tr as [ | [ | | ] tr IH]; cbn [app wire]; try assumption;
    [ reflexivity | now rewrite IH ].
Qed.

(** After a synchronisation that got the venue's time, a timestamp is the
    local clock plus the venue's time minus the local time of the
    synchronisation. *)
Theorem timestamp_after_sync (w : World) (cfg : Config) (st : State) (remote : Z) :
  let res := venue w (trace st) (time_request cfg) in
  let local := wall_clock w (trace st ++ [Exchange (time_request cfg) res]) in
  let synced := snd (_sync_time w cfg st) in
  remote_time_ms w res = Some remote ->
  fst (_timestamp_ms w synced) = Ok (wall_clock w (trace synced) + (remote - local))
  /\ time_offset_ms (snd (_timestamp_ms w synced)) = remote - local.
Proof.
  intros res local synced H. subst synced.
  rewrite !timestamp_ms_run. cbn [fst snd time_offset_ms].
  rewrite sync_time_run. cbv zeta. fold res. rewrite H. split; reflexivity.
Qed.

Lemma timestamp_after_sync_witness :
  fst (_timestamp_ms (demo_world "100.00000000")
         (snd (_sync_time (demo_world "100.00000000") demo_config initial_state)))
  = Ok (999500 + (1000000 - 999000)).
Proof.
  apply (timestamp_after_sync (demo_world "100.00000000") demo_config
           initial_state 1000000).
  reflexivity.
Defined.



(** The OCO price relation: with side, price and stop all present and
    truthy, a SELL passes iff [price > stop] and [stop_limit <= stop],
    any other side iff [price < stop] and [stop_limit >= stop]; the value
    is returned unchanged. *)
Theorem oco_relation_spec (side : string) (price stop v : float) :
  side <> "" -> (price =? 0)%float = false -> (stop =? 0)%float = false ->
  (side = "SELL" ->
     (oco_relation (Some side) (Some price) (Some stop) v = Ok v
      <-> (stop <? price)%float = true /\ (v <=? stop)%float = true))
  /\ (side <> "SELL" ->
        (oco_relation (Some side) (Some price) (Some stop) v = Ok v
         <-> (price <? stop)%float = true /\ (stop <=? v)%float = true))
  /\ (oco_relation (Some side) (Some price) (Some stop) v = Ok v
      \/ oco_relation (Some side) (Some price) (Some stop) v = Raise ValueError).
Proof.
  intros Hside Hprice Hstop. unfold oco_relation, truthy_float, truthy_text.
  rewrite Hprice, Hstop.
  destruct (String.eqb_spec side ""); [ contradiction | ]. cbn [negb andb].
  split; [ | split ].
  - intros ->. rewrite String.eqb_refl.
    destruct (stop <? price)%float, (v <=? stop)%float; cbn [negb andb];
      split; try tauto; try discriminate; intros [? ?]; discriminate.
  - intros Hns. destruct (String.eqb_spec side "SELL"); [ contradiction | ].
    destruct (price <? stop)%float, (stop <=? v)%float; cbn [negb andb];
      split; try tauto; try discriminate; intros [? ?]; discriminate.
  - destruct (String.eqb side "SELL").
    + destruct (negb _); [ right | left ]; reflexivity.
    + destruct (negb _); [ right | left ]; reflexivity.
Qed.

(** The specification's four examples. *)
Lemma oco_relation_spec_witness :
  (oco_relation (Some "SELL") (Some 110%float) (Some 100%float) 100 = Ok 100%float
   <-> (100 <? 110)%float = true /\ (100 <=? 100)%float = true).
Proof.
  apply (oco_relation_spec "SELL" 110 100 100); try reflexivity; discriminate.
Defined.

Example oco_relation_examples :
  oco_relation (Some "SELL") (Some 110%float) (Some 100%float) 100 = Ok 100%float
  /\ oco_relation (Some "SELL") (Some 110%float) (Some 100%float) 101 = Raise ValueError
  /\ oco_relation (Some "BUY") (Some 90%float) (Some 100%float) 100 = Ok 100%float
  /\ oco_relation (Some "BUY") (Some 100%float) (Some 100%float) 100 = Raise ValueError
  /\ oco_relation None (Some 100%float) (Some 100%float) 7 = Ok 7%float.
Proof. repeat split; vm_compute; reflexivity. Qed.

(** ** Validators and not-a-number *)

Lemma Prim2SF_zero : Prim2SF 0 = S754_zero false.
Proof. vm_compute. reflexivity. Qed.

Lemma SFcompare_refl_finite (s : bool) (m : positive) (e : Z) :
  SFcompare (S754_finite s m e) (S754_finite s m e) = Some Eq.
Proof.
  simpl. rewrite Z.compare_refl.
  change (PosDef.Pos.compare_cont Eq m m) with (Pos.compare m m).
  rewrite Pos.compare_refl. destruct s; reflexivity.
Qed.

Lemma is_nan_Prim2SF (x : float) : is_nan x = true -> Prim2SF x = S754_nan.
Proof.
  unfold is_nan. rewrite eqb_spec. unfold SFeqb.
  destruct (Prim2SF x) as [s | s | | s m e]; try reflexivity; intro H.
  - discriminate H.
  - destruct s; discriminate H.
  - rewrite SFcompare_refl_finite in H. discriminate H.
Qed.

Lemma SFcompare_nan_r (x : spec_float) : SFcompare x S754_nan = None.
Proof. destruct x; reflexivity. Qed.

(** A comparison with a not-a-number on either side is false. *)
Lemma nan_never_less (x y : float) :
  is_nan x = true -> (x <? y)%float = false /\ (y <? x)%float = false
                     /\ (x <=? y)%float = false.
Proof.
  intro H. apply is_nan_Prim2SF in H.
  rewrite !ltb_spec, leb_spec, H. unfold SFltb, SFleb.
  rewrite SFcompare_nan_r. repeat split.
Qed.

Lemma nan_mul_l (x y : float) : is_nan x = true -> is_nan (x * y) = true.
Proof.
  intro H. apply is_nan_Prim2SF in H.
  unfold is_nan. rewrite eqb_spec, mul_spec, H. reflexivity.
Qed.

Lemma nan_deviation (x last : float) :
  is_nan x = true -> is_nan (abs (x - last) / last * 100) = true.
Proof.
  intro H. apply is_nan_Prim2SF in H.
  unfold is_nan. rewrite eqb_spec, mul_spec, div_spec, abs_spec, sub_spec, H.
  reflexivity.
Qed.

Lemma not_leb_zero (v : float) :
  (v <=? 0)%float = false -> (0 <? v)%float = true \/ is_nan v = true.
Proof.
  unfold is_nan. rewrite leb_spec, ltb_spec, eqb_spec, Prim2SF_zero.
  unfold SFleb, SFltb, SFeqb.
  destruct (Prim2SF v) as [s | s | | s m e]; simpl; intro H;
    try discriminate H; try (destruct s; try discriminate H; now left).
  now right.
Qed.

(** The [pos] validator of the order bodies accepts a value exactly when
    [v <= 0] is false, and returns it unchanged.  What it accepts is
    either greater than zero or not a number: a NaN is let through. *)
Theorem pos_accepts (v : float) :
  (pos v = Ok v <-> (v <=? 0)%float = false)
  /\ (pos v = Ok v \/ pos v = Raise ValueError)
  /\ (pos v = Ok v -> (0 <? v)%float = true \/ is_nan v = true)
  /\ (is_nan v = true -> pos v = Ok v)
  /\ ((0 <? v)%float = true -> pos v = Ok v).
Proof.
  unfold pos. split; [ | split; [ | split; [ | split ] ] ].
  - destruct (v <=? 0)%float; split; intro H; try reflexivity; discriminate H.
  - destruct (v <=? 0)%float; [ right | left ]; reflexivity.
  - destruct (v <=? 0)%float eqn:E; intro H; [ discriminate H | ].
    now apply not_leb_zero.
  - intro H. destruct (nan_never_less v 0 H) as (_ & _ & Hle). now rewrite Hle.
  - intro H. rewrite leb_spec. rewrite ltb_spec in H.
    rewrite Prim2SF_zero in *. unfold SFleb, SFltb in *.
    destruct (Prim2SF v) as [s | s | | s m e]; simpl in *;
      try discriminate H; destruct s; try discriminate H; reflexivity.
Qed.

(** An order whose price is not a number is stopped by no price-based
    guardrail: the validator accepts it, the notional cap never fires
    whatever its value (only the quantity cap can still reject the
    order), and the deviation check never reports an excess: it passes,
    or fails only on the division by a zero last price. *)
Theorem nan_price_passes_guardrails (w : World) (cfg : Config) (symbol side : string)
    (price qty : float) (st : State) :
  is_nan price = true ->
  pos price = Ok price
  /\ (_enforce_limits w cfg symbol side price qty = Ok tt
      <-> (0 <? MAX_QTY_PER_ORDER cfg)%float && (MAX_QTY_PER_ORDER cfg <? qty)%float
          = false)
  /\ (fst (_enforce_price_deviation w cfg symbol price st) = Ok tt
      \/ fst (_enforce_price_deviation w cfg symbol price st) = Raise ZeroDivisionError).
Proof.
  intro Hnan. split; [ | split ].
  - unfold pos. destruct (nan_never_less price 0 Hnan) as (_ & _ & Hle). now rewrite Hle.
  - rewrite enforce_limits_pass_iff.
    destruct (nan_never_less _ (MAX_NOTIONAL_PER_ORDER cfg) (nan_mul_l price qty Hnan))
      as (_ & Hlt & _).
    rewrite Hlt, andb_false_r. tauto.
  - rewrite enforce_price_deviation_run. cbv zeta.
    destruct (_ <=? 0)%float; [ now left | ].
    destruct (last_price w _) as [last | ]; [ | now left ].
    destruct (last =? 0)%float; [ now right | ].
    destruct (nan_never_less _ (MAX_PRICE_DEVIATION_PCT cfg) (nan_deviation price last Hnan))
      as (_ & Hlt & _).
    rewrite Hlt. now left.
Qed.

Lemma nan_price_passes_guardrails_witness :
  _enforce_limits (demo_world "100.00000000") demo_config "BTCUSDT" "BUY" nan 1 = Ok tt
  <-> (0 <? MAX_QTY_PER_ORDER demo_config)%float
      && (MAX_QTY_PER_ORDER demo_config <? 1)%float = false.
Proof.
  apply (nan_price_passes_guardrails (demo_world "100.00000000") demo_config
           "BTCUSDT" "BUY" nan 1 initial_state).
  vm_compute. reflexivity.
Defined.

(** ** The unsigned side: public reads and the synchroniser *)

Lemma public_get_run (w : World) (cfg : Config) (path : string)
    (params : option dict) (st : State) :
  let req := {| method := "GET";
                url := BINANCE_HTTP_BASE cfg ++ path;
                query := match params with Some d => d | None => [] end;
                headers := [] |} in
  let res := venue w (trace st) req in
  _public_get w cfg path params st
  = (match res with
     | Unreachable => Raise RequestError
     | Reply r =>
         if is_success r
         then match json_loads (python w) (content r) with
              | Some j => Ok j
              | None => Raise JSONDecodeError
              end
         else Raise (HTTPStatusError r)
     end,
     {| time_offset_ms := time_offset_ms st;
        trace := trace st ++ [Exchange req res] |}).
Proof.
  intros req res. unfold _public_get, bind, send. fold req. fold res.
  cbn [time_offset_ms trace].
  destruct res as [r | ]; [ | reflexivity ].
  unfold raise_for_status. destruct (is_success r); [ | reflexivity ].
  unfold ret at 1. unfold response_json.
  destruct (json_loads (python w) (content r)); reflexivity.
Qed.

(** [exchange_info] sends one GET to [/api/v3/exchangeInfo], without
    headers and so without the API key, with the symbol exactly as given
    and only when it is non-empty.  Its failures are not translated: a
    status outside 2xx leaves as httpx's [HTTPStatusError] carrying the
    response, a transport failure as [RequestError], a body that is not
    JSON as [JSONDecodeError]; none becomes an [HTTPException]. *)
Theorem exchange_info_spec (w : World) (cfg : Config) (symbol : option string)
    (st : State) :
  let req := {| method := "GET";
                url := BINANCE_HTTP_BASE cfg ++ "/api/v3/exchangeInfo";
                query := match symbol with
                         | Some s => if String.eqb s "" then [] else [("symbol", PStr s)]
                         | None => []
                         end;
                headers := [] |} in
  let res := venue w (trace st) req in
  let run := exchange_info w cfg symbol st in
  snd run = {| time_offset_ms := time_offset_ms st;
               trace := trace st ++ [Exchange req res] |}
  /\ carries_api_key req = false
  /\ (res = Unreachable -> fst run = Raise RequestError)
  /\ (forall r, res = Reply r -> is_success r = false ->
        fst run = Raise (HTTPStatusError r))
  /\ (forall r, res = Reply r -> is_success r = true ->
        json_loads (python w) (content r) = None -> fst run = Raise JSONDecodeError)
  /\ (forall r j, res = Reply r -> is_success r = true ->
        json_loads (python w) (content r) = Some j -> fst run = Ok j)
  /\ (forall status detail, fst run <> Raise (HTTPException status detail)).
Proof.
  destruct symbol as [s | ]; [ destruct (String.eqb s "") eqn:E | ];
    cbv zeta; unfold exchange_info; cbn [truthy_text]; rewrite ?E; cbn [negb];
    rewrite public_get_run; cbv zeta; cbn [fst snd];
    match goal with |- context [venue w (trace st) ?rq] =>
      set (res := venue w (trace st) rq) end;
    (split; [ reflexivity | split; [ reflexivity | ] ]);
    (split; [ intros ->; reflexivity | ]);
    (split; [ intros r -> ->; reflexivity | ]);
    (split; [ intros r -> -> ->; reflexivity | ]);
    (split; [ intros r j -> -> ->; reflexivity | ]);
    intros status detail;
    (destruct res as [r | ]; [ | discriminate ]);
    (destruct (is_success r); [ | discriminate ]);
    destruct (json_loads (python w) (content r)); discriminate.
Qed.

(** One synchronisation adds the time request and at most one clock
    reading. *)
Lemma sync_time_events (w : World) (cfg : Config) (st : State) :
  fst (_sync_time w cfg st) = Ok tt
  /\ exists res ticks,
       trace (snd (_sync_time w cfg st))
       = trace st ++ Exchange (time_request cfg) res :: ticks
       /\ wire ticks = [] /\ existsb is_signing ticks = false.
Proof.
  rewrite sync_time_run. cbv zeta. split; [ reflexivity | ].
  set (res := venue w (trace st) (time_request cfg)).
  set (after := trace st ++ [Exchange (time_request cfg) res]).
  set (local := wall_clock w after).
  assert (Hafter : forall ticks, after ++ ticks
                                 = trace st ++ Exchange (time_request cfg) res :: ticks).
  { intro ticks. unfold after. now rewrite <- app_assoc. }
  assert (Hnil : after = trace st ++ [Exchange (time_request cfg) res]) by reflexivity.
  exists res.
  destruct (remote_time_ms w res) as [remote | ].
  { exists [Tick local]. cbn [snd trace]. rewrite Hafter. repeat split. }
  cbn [snd trace].
  destruct res as [r | ]; [ | exists []; repeat split; exact Hnil ].
  destruct (is_success r); [ | exists []; repeat split; exact Hnil ].
  destruct (json_loads (python w) (content r)) as [body | ];
    [ | exists []; repeat split; exact Hnil ].
  destruct (subscript body "serverTime");
    [ exists [Tick local]; rewrite Hafter; repeat split
    | exists []; repeat split; exact Hnil ].
Qed.

(** The synchroniser, however many rounds it runs and whatever the
    venue answers, never raises, sends exactly one request per round,
    each the plain GET of [/api/v3/time], and never signs anything nor
    sends the API key. *)
Theorem sync_rounds_unsigned (w : World) (cfg : Config) (n : nat) (st : State) :
  fst (sync_rounds w cfg n st) = Ok tt
  /\ exists events,
       trace (snd (sync_rounds w cfg n st)) = trace st ++ events
       /\ wire events = repeat (time_request cfg) n
       /\ existsb is_signing events = false.
Proof.
  revert st. induction n as [ | n IH]; intro st.
  - split; [ reflexivity | ]. exists []. cbn. now rewrite app_nil_r.
  - cbn [sync_rounds]. unfold bind.
    destruct (sync_time_events w cfg st) as (Hok & res & ticks & Htrace & Hwire & Hquiet).
    destruct (_sync_time w cfg st) as [[[] | e] st1]; cbn [fst snd] in *;
      [ | discriminate Hok ].
    destruct (IH st1) as (IHok & events & IHtrace & IHwire & IHquiet).
    split; [ exact IHok | ].
    exists (Exchange (time_request cfg) res :: ticks ++ events).
    split; [ | split ].
    + rewrite IHtrace, Htrace, <- app_assoc. reflexivity.
    + cbn [wire repeat]. now rewrite wire_app, Hwire, IHwire.
    + cbn [existsb is_signing carries_api_key time_request headers].
      now rewrite existsb_app, Hquiet, IHquiet.
Qed.

(** ** No route retries *)

Lemma signed_requests_app (a b : list event) :
  signed_requests (a ++ b) = signed_requests a ++ signed_requests b.
Proof. unfold signed_requests. now rewrite wire_app, filter_app. Qed.

Lemma one_call_refl (st : State) : one_call_at_most st st.
Proof.
  split; [ reflexivity | ]. exists []. rewrite app_nil_r.
  split; [ reflexivity | apply Nat.le_0_l ].
Qed.

(** Steps that send no signed request can be put in front. *)
Lemma one_call_after_quiet (st st1 st2 : State) (quiet : list event) :
  time_offset_ms st1 = time_offset_ms st ->
  trace st1 = trace st ++ quiet ->
  signed_requests quiet = [] ->
  one_call_at_most st1 st2 -> one_call_at_most st st2.
Proof.
  intros Hoff Htrace Hquiet [Hoff2 (events & Htrace2 & Hlen)].
  split; [ congruence | ].
  exists (quiet ++ events). split.
  - rewrite Htrace2, Htrace. now rewrite app_assoc.
  - now rewrite signed_requests_app, Hquiet.
Qed.

Lemma signed_request_one_call (w : World) (cfg : Config) (method path : string)
    (params : dict) (st : State) :
  one_call_at_most st (snd (_signed_request w cfg method path params st)).
Proof.
  destruct (String.eqb_spec (BINANCE_API_KEY cfg) "") as [Hkey | Hkey].
  { rewrite signed_request_unconfigured by auto. apply one_call_refl. }
  destruct (String.eqb_spec (BINANCE_API_SECRET cfg) "") as [Hsecret | Hsecret].
  { rewrite signed_request_unconfigured by auto. apply one_call_refl. }
  destruct (supported_method method) eqn:Hm.
  - rewrite signed_request_run by assumption. cbv zeta. cbn [snd].
    split; [ reflexivity | ]. cbn [trace]. eexists. rewrite <- app_assoc.
    split; [ reflexivity | ].
    unfold signed_requests. cbn [app wire filter].
    destruct (carries_api_key _); cbn [List.length]; auto.
  - rewrite signed_request_unsupported by assumption. cbv zeta. cbn [snd].
    split; [ reflexivity | ]. cbn [trace]. eexists.
    split; [ reflexivity | ]. cbn. auto.
Qed.

Lemma price_deviation_quiet (w : World) (cfg : Config) (symbol : string)
    (user_price : float) (st : State) :
  time_offset_ms (snd (_enforce_price_deviation w cfg symbol user_price st))
  = time_offset_ms st
  /\ exists quiet,
       trace (snd (_enforce_price_deviation w cfg symbol user_price st))
       = trace st ++ quiet
       /\ signed_requests quiet = [].
Proof.
  rewrite enforce_price_deviation_run. cbv zeta.
  destruct (_ <=? 0)%float.
  { split; [ reflexivity | ]. exists []. now rewrite app_nil_r. }
  assert (H : forall o : outcome unit,
             time_offset_ms (snd (o, {| time_offset_ms := time_offset_ms st;
                                        trace := trace st ++
                                          [Exchange (ticker_request cfg symbol)
                                             (venue w (trace st) (ticker_request cfg symbol))] |}))
             = time_offset_ms st
             /\ exists quiet,
                  trace (snd (o, {| time_offset_ms := time_offset_ms st;
                                    trace := trace st ++
                                      [Exchange (ticker_request cfg symbol)
                                         (venue w (trace st) (ticker_request cfg symbol))] |}))
                  = trace st ++ quiet
                  /\ signed_requests quiet = []).
  { intro o. split; [ reflexivity | ]. eexists. split; reflexivity. }
  destruct (last_price w _) as [last | ]; [ | apply H ].
  destruct (last =? 0)%float; [ apply H | ].
  destruct (_ <? _)%float; apply H.
Qed.

Lemma placement_final_state (limits : outcome unit) (deviation : M unit)
    (signed : M json) (wrap : json -> json) (st : State) :
  let route := lift limits ;;; deviation ;;; res <- signed ;; ret (wrap res) in
  snd (route st) = st
  \/ snd (route st) = snd (deviation st)
  \/ snd (route st) = snd (signed (snd (deviation st))).
Proof.
  cbv zeta. unfold bind, lift, ret.
  destruct limits as [[] | e]; [ | now left ].
  destruct (deviation st) as [[[] | e] st1]; cbn [snd]; [ | right; now left ].
  right. right. destruct (signed st1) as [[j | e] st2]; reflexivity.
Qed.

Lemma placement_one_call (w : World) (cfg : Config) (limits : outcome unit)
    (symbol path : string) (price : float) (params : dict) (wrap : json -> json)
    (st : State) :
  one_call_at_most st
    (snd ((lift limits ;;; _enforce_price_deviation w cfg symbol price ;;;
           res <- _signed_request w cfg "POST" path params ;; ret (wrap res)) st)).
Proof.
  destruct (price_deviation_quiet w cfg symbol price st) as (Hoff & quiet & Htrace & Hquiet).
  destruct (placement_final_state limits (_enforce_price_deviation w cfg symbol price)
              (_signed_request w cfg "POST" path params) wrap st) as [H | [H | H]];
    rewrite H.
  - apply one_call_refl.
  - apply (one_call_after_quiet st _ _ quiet Hoff Htrace Hquiet), one_call_refl.
  - apply (one_call_after_quiet st _ _ quiet Hoff Htrace Hquiet),
      signed_request_one_call.
Qed.

(** Whatever the venue answers and however a route ends, each of the
    five routes that talk to the venue with the API key sends at most
    one signed request (nothing is retried) and leaves the stored clock
    offset as it found it. *)
Theorem routes_one_signed_call (w : World) (cfg : Config) (st : State) :
  (forall order, one_call_at_most st (snd (place_limit w cfg order st)))
  /\ (forall oco, one_call_at_most st (snd (place_oco w cfg oco st)))
  /\ (forall body, one_call_at_most st (snd (cancel_order w cfg body st)))
  /\ (forall symbol, one_call_at_most st (snd (open_orders w cfg symbol st)))
  /\ (forall str_strip assets,
        one_call_at_most st (snd (balances w cfg str_strip assets st))).
Proof.
  split; [ | split; [ | split; [ | split ] ] ].
  - intro order. unfold place_limit. apply placement_one_call.
  - intro oco. unfold place_oco. apply placement_one_call.
  - intro body.
    destruct (truthy_int (orderId body) || truthy_text (clientOrderId body)) eqn:Hany.
    + rewrite cancel_order_forwarded by assumption. apply signed_request_one_call.
    + apply orb_false_elim in Hany. destruct Hany as [H1 H2].
      rewrite cancel_order_rejected by assumption. apply one_call_refl.
  - intro symbol. unfold open_orders. apply signed_request_one_call.
  - intros str_strip assets. unfold balances.
    pose proof (signed_request_one_call w cfg "GET" "/api/v3/account" [] st) as H.
    destruct (_signed_request w cfg "GET" "/api/v3/account" [] st) as [[data | e] st1];
      exact H.
Qed.

(** Fail-open, end to end.  With credentials set, an order that passes
    the notional and quantity caps while the deviation limit is in force
    and no last price can be had is sent all the same: the ticker request
    is followed by the one signed POST, and the route returns what the
    venue answers to it. *)
Theorem place_limit_fail_open (w : World) (cfg : Config) (order : LimitOrderIn)
    (st : State) :
  BINANCE_API_KEY cfg <> "" -> BINANCE_API_SECRET cfg <> "" ->
  _enforce_limits w cfg (lo_symbol order) (lo_side order) (lo_price order) (lo_qty order)
  = Ok tt ->
  (MAX_PRICE_DEVIATION_PCT cfg <=? 0)%float = false ->
  let ticker := ticker_request cfg (lo_symbol order) in
  let quote := venue w (trace st) ticker in
  last_price w quote = None ->
  let asked := trace st ++ [Exchange ticker quote] in
  let t := wall_clock w asked in
  let ts := t + time_offset_ms st in
  let req := signed_call cfg "POST" "/api/v3/order" ts (limit_params w order) in
  let before := asked ++ [Tick t; Signed (signed_text cfg ts (limit_params w order))] in
  let res := venue w before req in
  place_limit w cfg order st
  = (match answer_outcome w res with
     | Ok j => Ok (JObj [("ok", JBool true); ("binance", j)])
     | Raise e => Raise e
     end,
     {| time_offset_ms := time_offset_ms st;
        trace := before ++ [Exchange req res] |}).
Proof.
  intros Hkey Hsecret Hlimits Hon ticker quote Hnone asked t ts req before res.
  unfold place_limit. rewrite Hlimits.
  unfold bind at 1. unfold lift. unfold bind at 1.
  rewrite enforce_price_deviation_run. cbv zeta.
  fold ticker. fold quote. rewrite Hon, Hnone. fold asked.
  rewrite bind_ret_run.
  rewrite (signed_request_run w cfg "POST" "/api/v3/order" (limit_params w order)
             {| time_offset_ms := time_offset_ms st; trace := asked |} Hkey Hsecret eq_refl).
  reflexivity.
Qed.

Lemma place_limit_fail_open_witness :
  map method (wire (trace (snd (place_limit offline_world demo_config
    {| lo_symbol := "btcusdt"; lo_side := "BUY"; lo_price := 100%float;
       lo_qty := 1%float; lo_tif := "GTC"; lo_client_id := None |} initial_state))))
  = ["GET"; "POST"].
Proof.
  rewrite (place_limit_fail_open offline_world demo_config
    {| lo_symbol := "btcusdt"; lo_side := "BUY"; lo_price := 100%float;
       lo_qty := 1%float; lo_tif := "GTC"; lo_client_id := None |} initial_state);
    try discriminate; try (vm_compute; reflexivity).
Defined.

(** ** Loading the configuration *)

Lemma load_config_inv (py : Python) (str_lower : string -> string) (env : environ)
    (cfg : Config) :
  load_config py str_lower env = Ok cfg ->
  exists window max_notional max_qty max_deviation,
    int_of_text py (getenv env "RECV_WINDOW_MS" "5000") = Some window
    /\ float_of_text py (getenv env "MAX_NOTIONAL_PER_ORDER" "0") = Some max_notional
    /\ float_of_text py (getenv env "MAX_QTY_PER_ORDER" "0") = Some max_qty
    /\ float_of_text py (getenv env "MAX_PRICE_DEVIATION_PCT" "0") = Some max_deviation
    /\ cfg = {| BINANCE_ENV := str_lower (getenv env "BINANCE_ENV" "mainnet");
                BINANCE_HTTP_BASE :=
                  if truthy_text (env "BINANCE_HTTP_BASE")
                  then getenv env "BINANCE_HTTP_BASE" ""
                  else if String.eqb (str_lower (getenv env "BINANCE_ENV" "mainnet"))
                                     "mainnet"
                       then mainnet_base else testnet_base;
                BINANCE_API_KEY := getenv env "BINANCE_API_KEY" "";
                BINANCE_API_SECRET := getenv env "BINANCE_API_SECRET" "";
                AGENT_KEY := getenv env "AGENT_KEY" "";
                RECV_WINDOW_MS := window;
                MAX_NOTIONAL_PER_ORDER := max_notional;
                MAX_QTY_PER_ORDER := max_qty;
                MAX_PRICE_DEVIATION_PCT := max_deviation |}.
Proof.
  unfold load_config, read_int, read_float. intro H.
  destruct (int_of_text py _) as [window | ]; [ | discriminate H ].
  destruct (float_of_text py (getenv env "MAX_NOTIONAL_PER_ORDER" "0"))
    as [max_notional | ]; [ | discriminate H ].
  destruct (float_of_text py (getenv env "MAX_QTY_PER_ORDER" "0"))
    as [max_qty | ]; [ | discriminate H ].
  destruct (float_of_text py (getenv env "MAX_PRICE_DEVIATION_PCT" "0"))
    as [max_deviation | ]; [ | discriminate H ].
  injection H as <-.
  exists window, max_notional, max_qty, max_deviation. repeat split.
Qed.

(** The import succeeds exactly when the runtime accepts the window as
    an integer and the three caps as floats (the defaults ["5000"] and
    ["0"] standing in for unset variables); otherwise it ends with
    [ValueError] and there is no configuration. *)
Theorem load_config_numbers (py : Python) (str_lower : string -> string)
    (env : environ) :
  ((exists cfg, load_config py str_lower env = Ok cfg)
   <-> int_of_text py (getenv env "RECV_WINDOW_MS" "5000") <> None
       /\ float_of_text py (getenv env "MAX_NOTIONAL_PER_ORDER" "0") <> None
       /\ float_of_text py (getenv env "MAX_QTY_PER_ORDER" "0") <> None
       /\ float_of_text py (getenv env "MAX_PRICE_DEVIATION_PCT" "0") <> None)
  /\ ((exists cfg, load_config py str_lower env = Ok cfg)
      \/ load_config py str_lower env = Raise ValueError).
Proof.
  split.
  - split.
    + intros [cfg H]. apply load_config_inv in H.
      destruct H as (a & b & c & d & -> & -> & -> & -> & _).
      repeat split; discriminate.
    + intros (H1 & H2 & H3 & H4). unfold load_config, read_int, read_float.
      destruct (int_of_text py _); [ | contradiction ].
      destruct (float_of_text py (getenv env "MAX_NOTIONAL_PER_ORDER" "0"));
        [ | contradiction ].
      destruct (float_of_text py (getenv env "MAX_QTY_PER_ORDER" "0"));
        [ | contradiction ].
      destruct (float_of_text py (getenv env "MAX_PRICE_DEVIATION_PCT" "0"));
        [ | contradiction ].
      eexists. reflexivity.
  - unfold load_config, read_int, read_float.
    destruct (int_of_text py _); [ | now right ].
    destruct (float_of_text py (getenv env "MAX_NOTIONAL_PER_ORDER" "0"));
      [ | now right ].
    destruct (float_of_text py (getenv env "MAX_QTY_PER_ORDER" "0"));
      [ | now right ].
    destruct (float_of_text py (getenv env "MAX_PRICE_DEVIATION_PCT" "0"));
      [ | now right ].
    left. eexists. reflexivity.
Qed.

(** A non-empty [BINANCE_HTTP_BASE] is the base whatever [BINANCE_ENV]
    says.  Without one the base is the mainnet address when
    [BINANCE_ENV], lower-cased, is exactly [mainnet], and the testnet
    address for every other value; it is never empty. *)
Theorem load_config_base (py : Python) (str_lower : string -> string)
    (env : environ) (cfg : Config) :
  load_config py str_lower env = Ok cfg ->
  BINANCE_ENV cfg = str_lower (getenv env "BINANCE_ENV" "mainnet")
  /\ (forall b, env "BINANCE_HTTP_BASE" = Some b -> b <> "" ->
        BINANCE_HTTP_BASE cfg = b)
  /\ (env "BINANCE_HTTP_BASE" = None \/ env "BINANCE_HTTP_BASE" = Some "" ->
      (BINANCE_ENV cfg = "mainnet" -> BINANCE_HTTP_BASE cfg = mainnet_base)
      /\ (BINANCE_ENV cfg <> "mainnet" -> BINANCE_HTTP_BASE cfg = testnet_base))
  /\ BINANCE_HTTP_BASE cfg <> "".
Proof.
  intro H. apply load_config_inv in H.
  destruct H as (a & b & c & d & _ & _ & _ & _ & ->). cbn [BINANCE_ENV BINANCE_HTTP_BASE].
  split; [ reflexivity | split; [ | split ] ].
  - intros base Hb Hne. unfold getenv. rewrite Hb. cbn [truthy_text].
    destruct (String.eqb_spec base ""); [ contradiction | reflexivity ].
  - intros Hunset.
    assert (Hfalse : truthy_text (env "BINANCE_HTTP_BASE") = false)
      by (destruct Hunset as [-> | ->]; reflexivity).
    rewrite Hfalse. split.
    + intros ->. reflexivity.
    + intro Hne. destruct (String.eqb_spec (str_lower (getenv env "BINANCE_ENV" "mainnet"))
                             "mainnet"); [ contradiction | reflexivity ].
  - unfold getenv. destruct (env "BINANCE_HTTP_BASE") as [base | ]; cbn [truthy_text].
    + destruct (String.eqb_spec base ""); cbn [negb].
      * destruct (String.eqb _ "mainnet"); discriminate.
      * assumption.
    + destruct (String.eqb _ "mainnet"); discriminate.
Qed.

Lemma load_config_base_witness :
  BINANCE_HTTP_BASE
    {| BINANCE_ENV := "testnet"; BINANCE_HTTP_BASE := "http://localhost:9000";
       BINANCE_API_KEY := ""; BINANCE_API_SECRET := ""; AGENT_KEY := "";
       RECV_WINDOW_MS := 5000; MAX_NOTIONAL_PER_ORDER := 250.5%float;
       MAX_QTY_PER_ORDER := 0%float; MAX_PRICE_DEVIATION_PCT := 0%float |}
  <> "".
Proof.
  apply (load_config_base config_python lower_ascii_text demo_environ).
  vm_compute. reflexivity.
Defined.

(** Out of the box.  With no variable set (and a runtime that reads
    ["5000"] and ["0"] as the numbers they spell) the import succeeds
    with the mainnet base and a 5000 ms window, and then no guardrail is
    in force, every route that requires authentication answers 401
    whatever the request, and every signed call fails for want of
    credentials without touching the network. *)
Theorem load_config_defaults (py : Python) (str_lower : string -> string)
    (env : environ) :
  (forall name, env name = None) ->
  int_of_text py "5000" = Some 5000 ->
  float_of_text py "0" = Some 0%float ->
  str_lower "mainnet" = "mainnet" ->
  exists cfg,
    load_config py str_lower env = Ok cfg
    /\ BINANCE_HTTP_BASE cfg = mainnet_base
    /\ RECV_WINDOW_MS cfg = 5000
    /\ (forall w symbol side price qty,
          _enforce_limits w cfg symbol side price qty = Ok tt)
    /\ (forall w symbol price st,
          _enforce_price_deviation w cfg symbol price st = (Ok tt, st))
    /\ (forall e request_headers (body : M json) st,
          auth_required e = true ->
          serve cfg e request_headers body st
          = (Raise (HTTPException 401 (JStr "Unauthorized")), st))
    /\ (forall w method path params st,
          _signed_request w cfg method path params st
          = (Raise (HTTPException 500
               (JStr "BINANCE_API_KEY/BINANCE_API_SECRET not set")), st)).
Proof.
  intros Hunset Hint Hfloat Hlower.
  assert (Hzero : (0 <? 0)%float = false) by (vm_compute; reflexivity).
  assert (Hle : (0 <=? 0)%float = true) by (vm_compute; reflexivity).
  eexists. split.
  { unfold load_config, read_int, read_float, getenv.
    rewrite !Hunset, Hint, Hfloat, Hlower. cbn [truthy_text String.eqb Ascii.eqb Bool.eqb].
    reflexivity. }
  cbn [BINANCE_HTTP_BASE RECV_WINDOW_MS].
  split; [ reflexivity | split; [ reflexivity | ] ].
  split; [ | split; [ | split ] ].
  - intros w symbol side price qty. apply enforce_limits_pass_iff.
    cbn [MAX_NOTIONAL_PER_ORDER MAX_QTY_PER_ORDER]. now rewrite Hzero.
  - intros w symbol price st. unfold _enforce_price_deviation.
    cbn [MAX_PRICE_DEVIATION_PCT]. now rewrite Hle.
  - intros e request_headers body st He. unfold serve. rewrite He.
    unfold require_agent_key. cbn [AGENT_KEY]. reflexivity.
  - intros w method path params st. apply signed_request_unconfigured.
    left. reflexivity.
Qed.

Lemma load_config_defaults_witness :
  exists cfg,
    load_config config_python lower_ascii_text (fun _ => None) = Ok cfg
    /\ BINANCE_HTTP_BASE cfg = mainnet_base.
Proof.
  destruct (load_config_defaults config_python lower_ascii_text (fun _ => None))
    as (cfg & Hload & Hbase & _); try reflexivity.
  exists cfg. split; assumption.
Defined.

(** ** Balances *)

Lemma balance_entry_some (py : Python) (b entry : json) :
  balance_entry py b = Done (Some entry) ->
  nonzero_balance_entry entry
  /\ exists asset, subscript b "asset" = Ok asset /\ subscript entry "asset" = Ok asset.
Proof.
  unfold balance_entry. intro H.
  destruct (subscript b "free") as [free_v | ]; [ | discriminate H ].
  destruct (py_float py free_v) as [free | ]; [ | discriminate H ].
  destruct (subscript b "locked") as [locked_v | ]; [ | discriminate H ].
  destruct (py_float py locked_v) as [locked | ]; [ | discriminate H ].
  destruct (negb (PrimFloat.eqb free 0) || negb (PrimFloat.eqb locked 0)) eqn:Hnz;
    [ | discriminate H ].
  destruct (subscript b "asset") as [asset | ]; [ | discriminate H ].
  injection H as <-. split.
  - exists asset, free, locked. split; [ reflexivity | ].
    rewrite <- negb_andb in Hnz. now apply negb_true_iff in Hnz.
  - exists asset. split; reflexivity.
Qed.

Lemma balance_entries_from (py : Python) (items : list json) :
  forall out, balance_entries py items = Done out ->
    Forall (fun entry => exists b, In b items /\ balance_entry py b = Done (Some entry)) out.
Proof.
  induction items as [ | b items IH]; cbn [balance_entries]; intros out H.
  - injection H as <-. constructor.
  - destruct (balance_entry py b) as [entry | ] eqn:Hb; [ | discriminate H ].
    destruct (balance_entries py items) as [rest | ]; [ | discriminate H ].
    injection H as <-.
    assert (Hrest : Forall (fun x => exists b0, In b0 (b :: items)
                                       /\ balance_entry py b0 = Done (Some x)) rest).
    { eapply Forall_impl; [ | apply (IH rest eq_refl) ].
      intros x (b0 & Hin & Hx). exists b0. split; [ now right | exact Hx ]. }
    destruct entry as [x | ]; [ constructor | ]; try exact Hrest.
    exists b. split; [ now left | exact Hb ].
Qed.

Lemma keep_wanted_kept (py : Python) (wanted : list string) (items : list json) :
  forall kept, keep_wanted py wanted items = Done kept ->
    forall b, In b kept -> In b items /\ is_wanted py wanted b = Done true.
Proof.
  induction items as [ | b0 items IH]; cbn [keep_wanted]; intros kept H b Hin.
  - injection H as <-. destruct Hin.
  - destruct (is_wanted py wanted b0) as [keep | ] eqn:Hb0; [ | discriminate H ].
    destruct (keep_wanted py wanted items) as [rest | ]; [ | discriminate H ].
    injection H as <-.
    destruct keep.
    + destruct Hin as [<- | Hin].
      * split; [ now left | exact Hb0 ].
      * destruct (IH rest eq_refl b Hin). split; [ now right | assumption ].
    + destruct (IH rest eq_refl b Hin). split; [ now right | assumption ].
Qed.

Lemma is_wanted_asset (py : Python) (wanted : list string) (b asset : json) :
  is_wanted py wanted b = Done true -> subscript b "asset" = Ok asset ->
  exists s, asset = JStr s /\ In (str_upper py s) wanted.
Proof.
  unfold is_wanted, method_get, subscript.
  destruct b as [ | | | | | | fields]; try discriminate.
  destruct (assoc "asset" fields) as [v | ]; [ | discriminate ].
  intros Hw Ha. injection Ha as <-.
  destruct v as [ | | | | s | | ]; try discriminate.
  injection Hw as Hw. exists s. split; [ reflexivity | ].
  apply existsb_exists in Hw. destruct Hw as (x & Hin & Hx).
  apply String.eqb_eq in Hx. now subst x.
Qed.

(** What the balances route returns when it returns: an object with the
    one key [balances] holding a list of entries, each with [asset],
    [free], [locked] and [total = free + locked], none of them zero on
    both sides.  With a non-empty [assets] filter every entry's asset is
    moreover a text whose upper-case form is one of the filter's names. *)
Theorem balances_view_entries (py : Python) (str_strip : string -> string)
    (assets : option string) (data out : json) :
  balances_view py str_strip assets data = Done out ->
  exists entries,
    out = JObj [("balances", JArr entries)]
    /\ Forall nonzero_balance_entry entries
    /\ (forall a, assets = Some a -> a <> "" ->
          Forall (asset_among py (wanted_assets py str_strip a)) entries).
Proof.
  unfold balances_view. intro H.
  destruct (method_get data "balances" (JArr [])) as [bals | ]; [ | discriminate H ].
  destruct (truthy_text assets) eqn:Hfilter.
  - destruct (iterate bals) as [items | ]; [ | discriminate H ].
    destruct (keep_wanted py _ items) as [kept | ] eqn:Hkept; [ | discriminate H ].
    destruct (balance_entries py kept) as [entries | ] eqn:He; [ | discriminate H ].
    injection H as <-. exists entries. split; [ reflexivity | ].
    pose proof (balance_entries_from py kept entries He) as Hfrom.
    split.
    + eapply Forall_impl; [ | exact Hfrom ].
      intros x (b & _ & Hx). now apply balance_entry_some in Hx.
    + intros a -> Hne.
      eapply Forall_impl; [ | exact Hfrom ].
      intros x (b & Hin & Hx).
      apply balance_entry_some in Hx. destruct Hx as (_ & asset & Hb & Hentry).
      destruct (keep_wanted_kept py _ items kept Hkept b Hin) as [_ Hw].
      destruct (is_wanted_asset py _ b asset Hw Hb) as (s & -> & Hs).
      exists s. split; assumption.
  - destruct (iterate bals) as [items | ]; [ | discriminate H ].
    destruct (balance_entries py items) as [entries | ] eqn:He; [ | discriminate H ].
    injection H as <-. exists entries. split; [ reflexivity | ].
    split.
    + eapply Forall_impl; [ | exact (balance_entries_from py items entries He) ].
      intros x (b & _ & Hx). now apply balance_entry_some in Hx.
    + intros a -> Hne. cbn [truthy_text] in Hfilter.
      destruct (String.eqb_spec a ""); [ contradiction | discriminate Hfilter ].
Qed.

Lemma balances_view_entries_witness :
  exists entries,
    balances_view demo_python (fun s => s) None demo_account
    = Done (JObj [("balances", JArr entries)])
    /\ Forall nonzero_balance_entry entries.
Proof.
  destruct (balances_view_entries demo_python (fun s => s) None demo_account
              (JObj [("balances",
                      JArr [JObj [("asset", JStr "BTCUSDT"); ("free", JFloat 100);
                                  ("locked", JFloat 0); ("total", JFloat 100)]])]))
    as (entries & Hout & Hnz & _); [ vm_compute; reflexivity | ].
  exists entries. split; [ | exact Hnz ].
  rewrite <- Hout. vm_compute. reflexivity.
Defined.

(** The edges of the balances route: data that is not an object ends it
    with [AttributeError]; an object without a [balances] key, such as
    the marker a signed call returns for an empty body, gives an empty
    list, filter or no filter; and a balance that lacks [free] ends it
    with [KeyError] when it is reached. *)
Theorem balances_view_edges (py : Python) (str_strip : string -> string)
    (assets : option string) :
  (forall data, (forall fields, data <> JObj fields) ->
     balances_view py str_strip assets data = Failed AttributeError)
  /\ (forall fields, assoc "balances" fields = None ->
        balances_view py str_strip assets (JObj fields)
        = Done (JObj [("balances", JArr [])]))
  /\ balances_view py str_strip assets (JObj [("ok", JBool true)])
     = Done (JObj [("balances", JArr [])])
  /\ (forall fields rest,
        assoc "free" fields = None ->
        balances_view py str_strip None
          (JObj [("balances", JArr (JObj fields :: rest))])
        = Failed (Builtin (KeyError "free"))).
Proof.
  assert (Hmissing : forall fields, assoc "balances" fields = None ->
            balances_view py str_strip assets (JObj fields)
            = Done (JObj [("balances", JArr [])])).
  { intros fields H. unfold balances_view, method_get. rewrite H.
    cbn [iterate]. destruct (truthy_text assets); reflexivity. }
  split; [ | split; [ exact Hmissing | split ] ].
  - intros data Hnot. unfold balances_view, method_get.
    destruct data as [ | | | | | | fields]; try reflexivity.
    now destruct (Hnot fields).
  - apply Hmissing. reflexivity.
  - intros fields rest H. unfold balances_view. cbn.
    unfold balance_entry, subscript. now rewrite H.
Qed.

(** ** What an order looks like on the wire *)

Ltac reduce_dict :=
  cbn [dict_set dict_get dict_keys map fst snd String.eqb Ascii.eqb Bool.eqb
       truthy_text negb app].

(** The query of a placement request, as signed: the order's fields in
    the order the route lists them, the client's id only when it is a
    non-empty text, then [timestamp], [recvWindow] and last [signature].
    The symbol goes out upper-cased; the type of a limit order is
    [LIMIT]. *)
Theorem order_wire_keys (w : World) (cfg : Config) (ts : Z) :
  (forall order : LimitOrderIn,
     let q := signed_params cfg ts (limit_params w order) in
     let client := match lo_client_id order with
                   | Some id => if String.eqb id "" then None else Some id
                   | None => None
                   end in
     dict_keys q
     = ["symbol"; "side"; "type"; "timeInForce"; "quantity"; "price"; "newOrderRespType"]
       ++ (match client with Some _ => ["newClientOrderId"] | None => [] end)
       ++ ["timestamp"; "recvWindow"; "signature"]
     /\ dict_get q "symbol" = Some (PStr (str_upper (python w) (lo_symbol order)))
     /\ dict_get q "type" = Some (PStr "LIMIT")
     /\ dict_get q "newClientOrderId" = option_map PStr client)
  /\ (forall oco : OCOOrderIn,
        let q := signed_params cfg ts (oco_params w oco) in
        let client := match oco_client_id oco with
                      | Some id => if String.eqb id "" then None else Some id
                      | None => None
                      end in
        dict_keys q
        = ["symbol"; "side"; "quantity"; "price"; "stopPrice"; "stopLimitPrice";
           "stopLimitTimeInForce"; "newOrderRespType"]
          ++ (match client with Some _ => ["listClientOrderId"] | None => [] end)
          ++ ["timestamp"; "recvWindow"; "signature"]
        /\ dict_get q "symbol" = Some (PStr (str_upper (python w) (oco_symbol oco)))
        /\ dict_get q "listClientOrderId" = option_map PStr client).
Proof.
  split.
  - intro order. cbv zeta. unfold signed_params, limit_params, truthy_text.
    destruct (lo_client_id order) as [id | ]; [ destruct (String.eqb id "") | ];
      reduce_dict; repeat split.
  - intro oco. cbv zeta. unfold signed_params, oco_params, truthy_text.
    destruct (oco_client_id oco) as [id | ]; [ destruct (String.eqb id "") | ];
      reduce_dict; repeat split.
Qed.

(** ** The health route *)

(** [/api/health] is open and touches nothing: it is served whatever the
    request's headers, even with no [AGENT_KEY] configured, leaves the
    state as it is and sends no request.  The offset it reports is the
    stored one: after a synchronisation that got the venue's time, that
    time minus the local clock read when the answer was in. *)
Theorem health_reports_offset (w : World) (cfg : Config)
    (request_headers : list (string * string)) (st : State) :
  let res := venue w (trace st) (time_request cfg) in
  let local := wall_clock w (trace st ++ [Exchange (time_request cfg) res]) in
  let synced := snd (_sync_time w cfg st) in
  snd (serve cfg Health request_headers (health cfg) st) = st
  /\ (exists env base,
        fst (serve cfg Health request_headers (health cfg) st)
        = Ok (JObj [("ok", JBool true); ("env", env); ("base", base);
                    ("time_offset_ms", JInt (time_offset_ms st))]))
  /\ (forall remote, remote_time_ms w res = Some remote ->
        subscript_of_outcome (fst (health cfg synced)) "time_offset_ms"
        = Some (JInt (remote - local))).
Proof.
  cbv zeta. split; [ reflexivity | split ].
  - eexists. eexists. reflexivity.
  - intros remote H. rewrite sync_time_run. cbv zeta. rewrite H. reflexivity.
Qed.
